(** * RCF: SLE Return Channel Frames user interface (bliss/sle/rcf.py)

    A shallow embedding of the class [RCF] of [bliss/sle/rcf.py] and the
    properties of its operation builders ([start],
    [schedule_status_report]) and of its inbound dispatch ([_handle_pdu]
    and the handlers it reaches).

    Python values are modelled as follows.
    - An [int] argument that may be [None] is an [option Z]; its truth
      value is [truthy] ([None] and [0] are false).
    - A [str] is a [string], a byte string a [list byte].
    - A raised exception is the [Raise] outcome of the monad [M], which
      threads the observable environment [world] (log records, datagrams
      written to the telemetry socket, bytes written to the provider).
    - The methods inherited from [common.SLE], the frame decoder of the
      module [frames], pyasn1's [str] and the value constraints of the
      schema classes are not part of this file: they are the fields of
      the classes [SLE], [Frames], [PyAsn1] and [Schema]. *)

From Stdlib Require Import ZArith String Ascii List Lia Bool.
From Stdlib.Strings Require Import Byte.
From stdpp Require Import base gmap strings list pretty.
Import ListNotations.

Local Open Scope string_scope.
Local Open Scope list_scope.
Local Open Scope Z_scope.

(** ** Python values *)

Abbreviation bytes := (list Byte.byte).
Abbreviation pyint := (option Z).

(** [bool(x)] for an int-or-None [x]. *)
Definition truthy (x : pyint) : bool :=
  match x with
  | Some z => negb (z =? 0)
  | None => false
  end.

(** [c.upper()] on one ASCII character. *)
Definition upper_ascii (c : ascii) : ascii :=
  let n := nat_of_ascii c in
  if ((97 <=? n)%nat && (n <=? 122)%nat)%bool then ascii_of_nat (n - 32) else c.

(** [s.upper()] *)
Fixpoint upper (s : string) : string :=
  match s with
  | EmptyString => EmptyString
  | String c s' => String (upper_ascii c) (upper s')
  end.

(** [s[:1]] and [s[1:]] *)
Definition slice_to_1 (s : string) : string :=
  match s with
  | EmptyString => EmptyString
  | String c _ => String c EmptyString
  end.

Definition slice_from_1 (s : string) : string :=
  match s with
  | EmptyString => EmptyString
  | String _ s' => s'
  end.

(** [l[i]] on a Python list: negative indices count from the end, an index
    out of range raises IndexError ([None] here). *)
Definition py_index {A : Type} (l : list A) (i : Z) : option A :=
  let n := Z.of_nat (length l) in
  if (0 <=? i) && (i <? n) then nth_error l (Z.to_nat i)
  else if (- n <=? i) && (i <? 0) then nth_error l (Z.to_nat (n + i))
  else None.

(** ** Exceptions, environment and the monad of effects *)

Inductive exn : Type :=
| AttributeError (msg : string)
| ValueError (msg : string)
| struct_error
| IndexError
| TypeError
| PyAsn1Error
| OtherError (name : string).

Inductive outcome (A : Type) : Type :=
| Normal (a : A)
| Raise (e : exn).
Arguments Normal {A} a.
Arguments Raise {A} e.

(** The levels of [bliss.core.log]. *)
Inductive level : Type := INFO | WARNING | ERROR.

(** What a session can observe and change outside itself. *)
Record world : Type := mkWorld {
  log : list (level * string);              (* records of bliss.core.log *)
  telem_sock : list (bytes * (string * Z)); (* sendto(data, (host, port)) *)
  conn : list bytes;                        (* bytes written to the provider *)
  invoke_count : Z                          (* state of the base layer *)
}.

Definition M (A : Type) : Type := world -> outcome A * world.

Definition ret {A : Type} (a : A) : M A := fun w => (Normal a, w).

Definition bind {A B : Type} (c : M A) (k : A -> M B) : M B :=
  fun w =>
    match c w with
    | (Normal a, w') => k a w'
    | (Raise e, w') => (Raise e, w')
    end.

Definition raise {A : Type} (e : exn) : M A := fun w => (Raise e, w).

Declare Scope py_scope.
Delimit Scope py_scope with py.
Notation "x <- c ;; k" := (bind c (fun x => k))
  (at level 100, c at next level, right associativity) : py_scope.
Notation "c ;; k" := (bind c (fun _ => k))
  (at level 100, right associativity) : py_scope.
Local Open Scope py_scope.

(** [for x in xs: body(x)] *)
Fixpoint for_each {A : Type} (xs : list A) (body : A -> M unit) : M unit :=
  match xs with
  | [] => ret tt
  | x :: xs' => body x ;; for_each xs' body
  end.

(** [bliss.core.log.info(msg)] and [bliss.core.log.error(msg)] *)
Definition log_record (l : level) (msg : string) (w : world) : world :=
  mkWorld (log w ++ [(l, msg)]) (telem_sock w) (conn w) (invoke_count w).

Definition log_info (msg : string) : M unit :=
  fun w => (Normal tt, log_record INFO msg w).

Definition log_error (msg : string) : M unit :=
  fun w => (Normal tt, log_record ERROR msg w).

(** [sock.sendto(data, (host, port))] on the telemetry socket *)
Definition sendto (data : bytes) (addr : string * Z) : M unit :=
  fun w => (Normal tt,
            mkWorld (log w) (telem_sock w ++ [(data, addr)]) (conn w) (invoke_count w)).

(** ** datetime and struct *)

(** A [datetime.datetime]: the proleptic Gregorian ordinal of its date and
    its time of day. *)
Record datetime : Type := mkDatetime {
  toordinal : Z;
  hour : Z;
  minute : Z;
  second : Z;
  microsecond : Z
}.

(** A [datetime.timedelta], normalised as the constructor does:
    [0 <= seconds < 86400] and [0 <= microseconds < 1000000]. *)
Record timedelta : Type := mkTimedelta {
  days : Z;
  seconds : Z;
  microseconds : Z
}.

Definition timedelta_new (d s us : Z) : timedelta :=
  let total := (d * 86400 + s) * 1000000 + us in
  let per_day := 86400 * 1000000 in
  mkTimedelta (total / per_day)
              ((total mod per_day) / 1000000)
              ((total mod per_day) mod 1000000).

(** [a - b] on datetimes *)
Definition datetime_sub (a b : datetime) : timedelta :=
  let secs1 := second a + minute a * 60 + hour a * 3600 in
  let secs2 := second b + minute b * 60 + hour b * 3600 in
  timedelta_new (toordinal a - toordinal b) (secs1 - secs2)
                (microsecond a - microsecond b).

(** [a + timedelta(days=n)] *)
Definition datetime_add_days (a : datetime) (n : Z) : datetime :=
  mkDatetime (toordinal a + n) (hour a) (minute a) (second a) (microsecond a).

Definition byte_of_Z (z : Z) : Byte.byte :=
  match Byte.of_N (Z.to_N (z mod 256)) with
  | Some b => b
  | None => Byte.x00
  end.

(** [n] bytes of [v], most significant first. *)
Fixpoint pack_be (n : nat) (v : Z) : bytes :=
  match n with
  | O => []
  | S n' => byte_of_Z (v / 256 ^ Z.of_nat n') :: pack_be n' v
  end.

(** [struct.pack('!HIH', a, b, c)]: an unsigned 16-bit, an unsigned 32-bit
    and an unsigned 16-bit field in network byte order; a value that does
    not fit its field raises [struct.error]. *)
Definition struct_pack_HIH (a b c : Z) : M bytes :=
  if (0 <=? a) && (a <=? 65535) && (0 <=? b) && (b <=? 4294967295)
     && (0 <=? c) && (c <=? 65535)
  then ret (pack_be 2 a ++ pack_be 4 b ++ pack_be 2 c)
  else raise struct_error.

(** ** Outbound PDUs (bliss.sle.pdu.rcf)

    The pyasn1 schema classes are imported by rcf.py; the records below
    hold the components that [start] and [schedule_status_report] assign.
    A component that receives a caller's argument has the argument's type
    ([pyint]); the assignments that a schema class checks are guarded in
    [start] and [schedule_status_report]. *)

Inductive Credentials : Type :=
| unused
| used (credentials : bytes).

Inductive Time : Type :=
| ccsdsFormat (t : bytes).

Inductive ConditionalTime : Type :=
| undefined
| known (t : Time).

Inductive VcId : Type :=
| masterChannel
| virtualChannel (vc : pyint).

Record GvcId : Type := mkGvcId {
  spacecraftId : pyint;
  versionNumber : pyint;
  vcId : VcId
}.

Record RcfStartInvocation : Type := mkRcfStartInvocation {
  start_invokerCredentials : Credentials;
  start_invokeId : Z;
  startTime : ConditionalTime;
  stopTime : ConditionalTime;
  requestedGvcId : GvcId
}.

Inductive ReportRequestType : Type :=
| immediately
| periodically (cycle : pyint)
| stop.

Record RcfScheduleStatusReportInvocation : Type :=
  mkRcfScheduleStatusReportInvocation {
  report_invokerCredentials : Credentials;
  report_invokeId : Z;
  reportType : ReportRequestType
}.

Inductive RcfUsertoProviderPdu : Type :=
| rcfStartInvocation (v : RcfStartInvocation)
| rcfScheduleStatusReportInvocation (v : RcfScheduleStatusReportInvocation).

(** ** Inbound PDUs: decoded pyasn1 values

    [_handle_pdu] and the handlers use a decoded PDU through pyasn1's
    generic interface only ([getName], [getComponent], [x[key]], [x[0]],
    [key in x], [isValue], [asOctets], [int]). *)

#[warnings="-register-all"] Inductive asn1 : Type :=
| Choice (name : string) (component : asn1)
| Sequence (components : list (string * asn1))
| SequenceOf (items : list asn1)
| OctetString (octets : bytes)
| Integer (z : Z)
| Null
| NoValue.   (* a schema object that holds no value: isValue is False *)

Definition getName (v : asn1) : outcome string :=
  match v with
  | Choice name _ => Normal name
  | _ => Raise (AttributeError "getName")
  end.

Definition getComponent (v : asn1) : outcome asn1 :=
  match v with
  | Choice _ component => Normal component
  | _ => Raise (AttributeError "getComponent")
  end.

Fixpoint lookup_component (key : string) (cs : list (string * asn1)) : option asn1 :=
  match cs with
  | [] => None
  | (k, v) :: cs' => if String.eqb k key then Some v else lookup_component key cs'
  end.

(** [v[key]] *)
Definition getitem (v : asn1) (key : string) : outcome asn1 :=
  match v with
  | Sequence cs =>
      match lookup_component key cs with
      | Some c => Normal c
      | None => Raise PyAsn1Error
      end
  | Choice name component =>
      if String.eqb name key then Normal component else Raise PyAsn1Error
  | _ => Raise TypeError
  end.

(** [v[0]] *)
Definition getitem_0 (v : asn1) : outcome asn1 :=
  match v with
  | SequenceOf (item :: _) => Normal item
  | SequenceOf [] => Raise IndexError
  | _ => Raise TypeError
  end.

(** [key in v] *)
Definition contains (key : string) (v : asn1) : outcome bool :=
  match v with
  | Sequence cs =>
      Normal (match lookup_component key cs with Some _ => true | None => false end)
  | Choice name _ => Normal (String.eqb name key)
  | _ => Raise TypeError
  end.

Definition isValue (v : asn1) : bool :=
  match v with
  | NoValue => false
  | _ => true
  end.

Definition asOctets (v : asn1) : outcome bytes :=
  match v with
  | OctetString octets => Normal octets
  | _ => Raise (AttributeError "asOctets")
  end.

(** [int(v)] *)
Definition int (v : asn1) : outcome Z :=
  match v with
  | Integer z => Normal z
  | _ => Raise TypeError
  end.

Definition lift {A : Type} (o : outcome A) : M A := fun w => (o, w).

(** ** Collaborators outside rcf.py *)

(** The base class [common.SLE] and the constant [common.CCSDS_EPOCH]. *)
Class SLE : Type := {
  CCSDS_EPOCH : datetime;
  make_credentials : M bytes;
  invoke_id : M Z;
  encode_pdu : RcfUsertoProviderPdu -> M bytes;
  send : bytes -> M unit;
  SLE_bind_return_handler : asn1 -> string -> M unit;
  SLE_unbind_return_handler : asn1 -> string -> M unit;
  SLE_start_return_handler : asn1 -> string -> M unit;
  SLE_stop_return_handler : asn1 -> string -> M unit;
  SLE_schedule_status_report_return_handler : asn1 -> string -> M unit;
  SLE_status_report_invoc_handler : asn1 -> string -> M unit;
  SLE_peer_abort_handler : asn1 -> string -> M unit;
  SLE_get_param_return_handler : asn1 -> string -> M unit
}.

(** [frames.TMTransFrame(data)._data]: the data segments of the decoded
    transfer frame. *)
Class Frames : Type := {
  TMTransFrame : bytes -> M (list bytes)
}.

(** [str(v)] on a pyasn1 value, as ['{}'.format(v)] prints it. *)
Class PyAsn1 : Type := {
  asn1_str : asn1 -> string
}.

(** The schema classes of [bliss.sle.pdu.rcf] check a value when it is
    assigned to a component and raise when it breaks their constraints.
    [VcId_accepts] is the value constraint of the class [VcId], to which
    the docstring of [start] refers (lines 176-178); the two errors are the
    exceptions that a rejected assignment raises. *)
Class Schema : Type := {
  VcId_accepts : pyint -> bool;
  VcId_error : pyint -> exn;
  ReportingCycle_error : pyint -> exn
}.

(** Modelled from the spec: the value constraint of the reporting cycle,
    whose schema class is not under src/: "Periodic(cycle: integer, valid
    range 2-600 inclusive)"; the docstring of [schedule_status_report]
    (lines 249-252) gives the same range.  [None] is no integer. *)
Definition ReportingCycle_accepts (cycle : pyint) : bool :=
  match cycle with
  | Some c => (2 <=? c) && (c <=? 600)
  | None => false
  end.

(** ** The class RCF *)

(** The callables found in a handler list: the bound methods that
    [RCF.__init__] registers and any callable registered by a user. *)
Inductive handler : Type :=
| bound_bind_return_handler
| bound_unbind_return_handler
| bound_start_return_handler
| bound_stop_return_handler
| bound_data_transfer_handler
| bound_schedule_status_report_return_handler
| bound_status_report_invoc_handler
| bound_get_param_return_handler
| bound_transfer_data_invoc_handler
| bound_sync_notify_handler
| bound_peer_abort_handler
| callable (f : asn1 -> M unit).

Record RCF : Type := mkRCF {
  _auth_level : string;
  _service_type : string;
  _version : Z;
  _scid : pyint;
  _tfvn : pyint;
  _handlers : gmap string (list handler)
}.

(** [handlers[key].append(h)] on the [defaultdict(list)] of the base class *)
Definition append_handler (key : string) (h : handler)
    (handlers : gmap string (list handler)) : gmap string (list handler) :=
  <[key := default [] (handlers !! key) ++ [h]]> handlers.

(** [RCF.__init__]: [auth_level] and [handlers] are what the base class
    constructor leaves in [self]; the keyword arguments are [None] when
    not given. *)
Definition RCF__init__ (auth_level : string) (handlers : gmap string (list handler))
    (version : option Z) (spacecraft_id trans_frame_ver_num : pyint) : RCF :=
  mkRCF auth_level "rtnChFrames" (default 5 version)
    spacecraft_id trans_frame_ver_num
    (append_handler "RcfPeerAbortInvocation" bound_peer_abort_handler
    (append_handler "SyncNotification" bound_sync_notify_handler
    (append_handler "AnnotatedFrame" bound_transfer_data_invoc_handler
    (append_handler "RcfGetParameterReturn" bound_get_param_return_handler
    (append_handler "RcfStatusReportInvocation" bound_status_report_invoc_handler
    (append_handler "RcfScheduleStatusReportReturn"
       bound_schedule_status_report_return_handler
    (append_handler "RcfTransferBuffer" bound_data_transfer_handler
    (append_handler "RcfStopReturn" bound_stop_return_handler
    (append_handler "RcfStartReturn" bound_start_return_handler
    (append_handler "RcfUnbindReturn" bound_unbind_return_handler
    (append_handler "RcfBindReturn" bound_bind_return_handler
       handlers))))))))))).

Section Operations.
Context `{SLE} `{Frames} `{PyAsn1} `{Schema}.

Definition start_err_channel : string :=
  "Transfer start invocation requires a master channel or " +:+
  "virtual channel from which to receive frames.".

Definition start_err_scid : string :=
  "Transfer start invocation requires a spacecraft id " +:+
  "to specify the VCID from which to receive frames.".

Definition start_err_tfvn : string :=
  "Transfer start invocation requires a transfer frame " +:+
  "version number to specify the VCID from which to " +:+
  "receive frames.".

(** [RCF.start] *)
Definition start (self : RCF) (start_time end_time : datetime)
    (spacecraft_id trans_frame_ver_num : pyint)
    (master_channel : bool) (virtual_channel : pyint) : M unit :=
  if negb master_channel && negb (truthy virtual_channel)
  then raise (AttributeError start_err_channel)
  else
  let spacecraft_id :=
    if truthy spacecraft_id then spacecraft_id else _scid self in
  if negb (truthy spacecraft_id)
  then raise (AttributeError start_err_scid)
  else
  let trans_frame_ver_num :=
    if truthy trans_frame_ver_num then trans_frame_ver_num else _tfvn self in
  if negb (truthy trans_frame_ver_num)
  then raise (AttributeError start_err_tfvn)
  else
  credentials <-
    (if String.eqb (_auth_level self) "all"
     then (c <- make_credentials ;; ret (used c))
     else ret unused) ;;
  invokeId <- invoke_id ;;
  start_time <- struct_pack_HIH (days (datetime_sub start_time CCSDS_EPOCH)) 0 0 ;;
  stop_time <- struct_pack_HIH (days (datetime_sub end_time CCSDS_EPOCH)) 0 0 ;;
  vc_id <-
    (if master_channel then ret masterChannel
     else if VcId_accepts virtual_channel
          then ret (virtualChannel virtual_channel)
          else raise (VcId_error virtual_channel)) ;;
  let req_gvcid := mkGvcId spacecraft_id trans_frame_ver_num vc_id in
  let start_invoc :=
    rcfStartInvocation
      (mkRcfStartInvocation credentials invokeId
         (known (ccsdsFormat start_time)) (known (ccsdsFormat stop_time))
         req_gvcid) in
  log_info "Sending data start invocation ..." ;;
  data <- encode_pdu start_invoc ;;
  send data.

(** [RCF.schedule_status_report] *)
Definition schedule_status_report (self : RCF) (report_type : string)
    (cycle : pyint) : M unit :=
  credentials <-
    (if String.eqb (_auth_level self) "all"
     then (c <- make_credentials ;; ret (used c))
     else ret unused) ;;
  invokeId <- invoke_id ;;
  reportType <-
    (if String.eqb report_type "immediately" then ret immediately
     else if String.eqb report_type "periodically" then
       if ReportingCycle_accepts cycle then ret (periodically cycle)
       else raise (ReportingCycle_error cycle)
     else if String.eqb report_type "stop" then ret stop
     else raise (ValueError ("Unknown report type: " +:+ report_type))) ;;
  let pdu :=
    rcfScheduleStatusReportInvocation
      (mkRcfScheduleStatusReportInvocation credentials invokeId reportType) in
  log_info "Scheduling Status Report" ;;
  data <- encode_pdu pdu ;;
  send data.

(** The handlers that delegate to the base class with their provider key. *)
Definition _bind_return_handler (pdu : asn1) : M unit :=
  SLE_bind_return_handler pdu "rcfBindReturn".
Definition _unbind_return_handler (pdu : asn1) : M unit :=
  SLE_unbind_return_handler pdu "rcfUnbindReturn".
Definition _start_return_handler (pdu : asn1) : M unit :=
  SLE_start_return_handler pdu "rcfStartReturn".
Definition _stop_return_handler (pdu : asn1) : M unit :=
  SLE_stop_return_handler pdu "rcfStopReturn".
Definition _schedule_status_report_return_handler (pdu : asn1) : M unit :=
  SLE_schedule_status_report_return_handler pdu "rcfScheduleStatusReportReturn".
Definition _status_report_invoc_handler (pdu : asn1) : M unit :=
  SLE_status_report_invoc_handler pdu "rcfStatusReportInvocation".
Definition _peer_abort_handler (pdu : asn1) : M unit :=
  SLE_peer_abort_handler pdu "rcfPeerAbortInvocation".
Definition _get_param_return_handler (pdu : asn1) : M unit :=
  SLE_get_param_return_handler pdu "rcfGetParameterReturn".

Definition transfer_data_err : string :=
  "RcfTransferBuffer received but data cannot be located. " +:+
  "Skipping further processing of this PDU ...".

(** [RCF._transfer_data_invoc_handler] *)
Definition _transfer_data_invoc_handler (pdu : asn1) : M unit :=
  frame <- lift (getComponent pdu) ;;
  in_frame <- lift (contains "data" frame) ;;
  has_data <-
    (if (in_frame : bool)
     then (d <- lift (getitem frame "data") ;; ret (isValue d))
     else ret false) ;;
  if (has_data : bool) then
    d <- lift (getitem frame "data") ;;
    tm_data <- lift (asOctets d) ;;
    tmf_data <- TMTransFrame tm_data ;;
    match tmf_data with
    | [] => raise IndexError
    | segment :: _ =>
        log_info ("Sending " +:+ pretty (length segment) +:+
                  " bytes to telemetry port") ;;
        sendto segment ("localhost", 3076)
    end
  else log_info transfer_data_err.

Definition prod_status_labels : list string :=
  ["running"; "interrupted"; "halted"].

(** [RCF._sync_notify_handler] *)
Definition _sync_notify_handler (pdu : asn1) : M unit :=
  component <- lift (getComponent pdu) ;;
  choice <- lift (getitem component "notification") ;;
  notification_name <- lift (getName choice) ;;
  notification <- lift (getComponent choice) ;;
  report <-
    (if String.eqb notification_name "lossFrameSync" then
       time <- lift (getitem notification "time") ;;
       carrier <- lift (getitem notification "carrierLockStatus") ;;
       subcarrier <- lift (getitem notification "subcarrierLockStatus") ;;
       symbol <- lift (getitem notification "symbolSynclockStatus") ;;
       ret ("Frame Sync has been lost. See report below ... " +:+
            String "010" (String "010" "") +:+
            "Lock Status Report" +:+ String "010" "" +:+
            "Lock Time: " +:+ asn1_str time +:+ String "010" "" +:+
            "Carrier Lock Status: " +:+ asn1_str carrier +:+ String "010" "" +:+
            "Sub-Carrier Lock Status: " +:+ asn1_str subcarrier +:+
            String "010" "" +:+
            "Symbol Sync Lock Status: " +:+ asn1_str symbol)
     else if String.eqb notification_name "productionStatusChange" then
       index <- lift (int notification) ;;
       match py_index prod_status_labels index with
       | Some label => ret ("Production Status Report: " +:+ label)
       | None => raise IndexError
       end
     else if String.eqb notification_name "excessiveDataBacklog" then
       ret "Excessive Data Backlog Detected"
     else if String.eqb notification_name "endOfData" then
       ret "End of Data Received"
     else ret ("Received unknown sync notification: " +:+ notification_name)) ;;
  log_info report.

(** [RCF._data_transfer_handler]: [handle_pdu] is [self._handle_pdu] and
    the argument of the call is [pdu['rcfTransferBuffer'][0]], the match
    being [getitem pdu "rcfTransferBuffer"] followed by [getitem_0] on a
    choice value (the only values that [_handle_pdu] passes to a handler). *)
Definition _data_transfer_handler (handle_pdu : asn1 -> M unit) (pdu : asn1)
    : M unit :=
  match pdu with
  | Choice name component =>
      if String.eqb name "rcfTransferBuffer" then
        match component with
        | SequenceOf (entry :: _) => handle_pdu entry
        | SequenceOf [] => raise IndexError
        | _ => raise TypeError
        end
      else raise PyAsn1Error
  | _ => raise TypeError
  end.

(** [h(pdu)] for a member [h] of a handler list *)
Definition call (handle_pdu : asn1 -> M unit) (h : handler) (pdu : asn1)
    : M unit :=
  match h with
  | bound_bind_return_handler => _bind_return_handler pdu
  | bound_unbind_return_handler => _unbind_return_handler pdu
  | bound_start_return_handler => _start_return_handler pdu
  | bound_stop_return_handler => _stop_return_handler pdu
  | bound_data_transfer_handler => _data_transfer_handler handle_pdu pdu
  | bound_schedule_status_report_return_handler =>
      _schedule_status_report_return_handler pdu
  | bound_status_report_invoc_handler => _status_report_invoc_handler pdu
  | bound_get_param_return_handler => _get_param_return_handler pdu
  | bound_transfer_data_invoc_handler => _transfer_data_invoc_handler pdu
  | bound_sync_notify_handler => _sync_notify_handler pdu
  | bound_peer_abort_handler => _peer_abort_handler pdu
  | callable f => f pdu
  end.

Definition handle_pdu_err (pdu_key : string) : string :=
  "PDU of type " +:+ pdu_key +:+ " has no associated handlers. " +:+
  "Unable to process further and skipping ...".

(** [pdu_key[:1].upper() + pdu_key[1:]] *)
Definition normalize_key (pdu_key : string) : string :=
  upper (slice_to_1 pdu_key) +:+ slice_from_1 pdu_key.

(** [RCF._handle_pdu] *)
Fixpoint _handle_pdu (self : RCF) (pdu : asn1) {struct pdu} : M unit :=
  match pdu with
  | Choice name _ =>
      let pdu_key := normalize_key name in
      match _handlers self !! pdu_key with
      | Some pdu_handlerss =>
          for_each pdu_handlerss (fun h => call (_handle_pdu self) h pdu)
      | None => log_error (handle_pdu_err pdu_key)
      end
  | _ => raise (AttributeError "getName")
  end.

End Operations.

(** ** Vocabulary of the specification *)



(** The Credential Selector, as a function of the authentication level. *)
Definition Credential_Selector `{SLE} (session_auth_level : string) : M Credentials :=
  if String.eqb session_auth_level "all"
  then (c <- make_credentials ;; ret (used c))
  else ret unused.

(** Handing a PDU to the transport: [self.send(self.encode_pdu(pdu))]. *)
Definition transmit `{SLE} (pdu : RcfUsertoProviderPdu) : M unit :=
  data <- encode_pdu pdu ;; send data.

(** The value that [start] and [schedule_status_report] resolve from an
    argument and its session default. *)
Definition resolved (argument default : pyint) : pyint :=
  if truthy argument then argument else default.

(** The ReportSchedule that a report-type string and a cycle denote:
    Immediate, Periodic(cycle) with a cycle in its valid range, or Stop;
    nothing else denotes one. *)
Definition ReportSchedule (report_type : string) (cycle : pyint)
    : option ReportRequestType :=
  if String.eqb report_type "immediately" then Some immediately
  else if String.eqb report_type "periodically" then
    if ReportingCycle_accepts cycle then Some (periodically cycle) else None
  else if String.eqb report_type "stop" then Some stop
  else None.

(** The handlers of a list are invoked one after the other, each on the
    environment its predecessor left; a handler that raises ends the
    loop. *)
Inductive invoked_in_order (invoke : handler -> M unit)
  : list handler -> world -> outcome unit * world -> Prop :=
| invoked_none w :
    invoked_in_order invoke [] w (Normal tt, w)
| invoked_next h hs w w' r :
    invoke h w = (Normal tt, w') ->
    invoked_in_order invoke hs w' r ->
    invoked_in_order invoke (h :: hs) w r
| invoked_raises h hs w e w' :
    invoke h w = (Raise e, w') ->
    invoked_in_order invoke (h :: hs) w (Raise e, w').

(** Microseconds since midnight of a datetime. *)
Definition time_of_day (t : datetime) : Z :=
  (second t + minute t * 60 + hour t * 3600) * 1000000 + microsecond t.

(** The handler that [RCF.__init__] registers under a key (lines 104-114),
    if any. *)
Definition registered_handler (key : string) : option handler :=
  if String.eqb key "RcfBindReturn" then Some bound_bind_return_handler
  else if String.eqb key "RcfUnbindReturn" then Some bound_unbind_return_handler
  else if String.eqb key "RcfStartReturn" then Some bound_start_return_handler
  else if String.eqb key "RcfStopReturn" then Some bound_stop_return_handler
  else if String.eqb key "RcfTransferBuffer" then Some bound_data_transfer_handler
  else if String.eqb key "RcfScheduleStatusReportReturn"
    then Some bound_schedule_status_report_return_handler
  else if String.eqb key "RcfStatusReportInvocation"
    then Some bound_status_report_invoc_handler
  else if String.eqb key "RcfGetParameterReturn"
    then Some bound_get_param_return_handler
  else if String.eqb key "AnnotatedFrame"
    then Some bound_transfer_data_invoc_handler
  else if String.eqb key "SyncNotification" then Some bound_sync_notify_handler
  else if String.eqb key "RcfPeerAbortInvocation"
    then Some bound_peer_abort_handler
  else None.

(** The provider PDUs that are answered by the base class, each with the
    method of [common.SLE] that receives it (lines 301-332). *)
Definition delegations `{SLE} : list (string * (asn1 -> string -> M unit)) :=
  [ ("rcfBindReturn", SLE_bind_return_handler);
    ("rcfUnbindReturn", SLE_unbind_return_handler);
    ("rcfStartReturn", SLE_start_return_handler);
    ("rcfStopReturn", SLE_stop_return_handler);
    ("rcfScheduleStatusReportReturn", SLE_schedule_status_report_return_handler);
    ("rcfStatusReportInvocation", SLE_status_report_invoc_handler);
    ("rcfPeerAbortInvocation", SLE_peer_abort_handler);
    ("rcfGetParameterReturn", SLE_get_param_return_handler) ].

(** ** A concrete session

    A deterministic stand-in for the base layer: invoke ids count up,
    encoding keeps the time fields or the report cycle, sending appends
    to the connection, and the frame decoder returns the octets as the
    only data segment. *)
Module Loopback.

Definition epoch : datetime := mkDatetime 714780 0 0 0 0.   (* 1958-01-01 *)

Definition next_invoke_id : M Z :=
  fun w => (Normal (invoke_count w),
            mkWorld (log w) (telem_sock w) (conn w) (invoke_count w + 1)).

Definition encode (pdu : RcfUsertoProviderPdu) : M bytes :=
  ret match pdu with
      | rcfStartInvocation v =>
          match startTime v, stopTime v with
          | known (ccsdsFormat a), known (ccsdsFormat b) => Byte.x00 :: a ++ b
          | _, _ => [Byte.x00]
          end
      | rcfScheduleStatusReportInvocation v =>
          match reportType v with
          | periodically (Some cycle) => Byte.x01 :: pack_be 2 cycle
          | _ => [Byte.x01]
          end
      end.

Definition write (data : bytes) : M unit :=
  fun w => (Normal tt,
            mkWorld (log w) (telem_sock w) (conn w ++ [data]) (invoke_count w)).

Definition base_handler (pdu : asn1) (provider_key : string) : M unit :=
  log_info provider_key.

Definition sle : SLE :=
  {| CCSDS_EPOCH := epoch;
     make_credentials := ret [Byte.x2a];
     invoke_id := next_invoke_id;
     encode_pdu := encode;
     send := write;
     SLE_bind_return_handler := base_handler;
     SLE_unbind_return_handler := base_handler;
     SLE_start_return_handler := base_handler;
     SLE_stop_return_handler := base_handler;
     SLE_schedule_status_report_return_handler := base_handler;
     SLE_status_report_invoc_handler := base_handler;
     SLE_peer_abort_handler := base_handler;
     SLE_get_param_return_handler := base_handler |}.

Definition frames : Frames :=
  {| TMTransFrame := fun data => ret [data] |}.

(** A decoder that refuses octets shorter than a six-byte frame header. *)
Definition strict_frames : Frames :=
  {| TMTransFrame := fun data =>
       if (length data <? 6)%nat then raise struct_error
       else ret [skipn 6 data] |}.

(** A schema whose virtual channel ids are 0..63. *)
Definition schema : Schema :=
  {| VcId_accepts := fun vc =>
       match vc with
       | Some v => (0 <=? v) && (v <=? 63)
       | None => false
       end;
     VcId_error := fun _ => PyAsn1Error;
     ReportingCycle_error := fun _ => PyAsn1Error |}.

Definition pyasn1 : PyAsn1 :=
  {| asn1_str := fun v => match v with Integer z => pretty z | _ => "" end |}.

(** [RCF(auth_level=..., spacecraft_id=42, trans_frame_ver_num=1)] *)
Definition session (auth_level : string) : RCF :=
  RCF__init__ auth_level ∅ None (Some 42) (Some 1).

(** [RCF(auth_level=...)]: no session default for the GVCId *)
Definition bare_session (auth_level : string) : RCF :=
  RCF__init__ auth_level ∅ None None None.

Definition w0 : world := mkWorld [] [] [] 0.

End Loopback.

(** * Properties *)

(** ** Bytes, time and the struct format *)


Lemma pack_be_length (n : nat) (v : Z) : length (pack_be n v) = n.
Proof. induction n as [|n IH]; simpl; [reflexivity | now rewrite IH]. Qed.



Lemma days_after_epoch (e : datetime) (n : Z) :
  days (datetime_sub (datetime_add_days e n) e) = n.
Proof.
  unfold datetime_sub, datetime_add_days, timedelta_new. simpl.
  replace ((toordinal e + n - toordinal e) * 86400 +
           (second e + minute e * 60 + hour e * 3600 -
            (second e + minute e * 60 + hour e * 3600))) with (n * 86400) by lia.
  replace (n * 86400 * 1000000 + (microsecond e - microsecond e))
    with (n * (86400 * 1000000)) by lia.
  apply Z.div_mul. lia.
Qed.

Lemma struct_pack_HIH_days (n : Z) (w : world) :
  0 <= n <= 65535 ->
  struct_pack_HIH n 0 0 w = (Normal (pack_be 2 n ++ pack_be 4 0 ++ pack_be 2 0), w).
Proof.
  intros [Hlo Hhi]. unfold struct_pack_HIH.
  apply Z.leb_le in Hlo. apply Z.leb_le in Hhi. rewrite Hlo, Hhi. reflexivity.
Qed.

Lemma struct_pack_HIH_overflow (n : Z) (w : world) :
  65535 < n -> struct_pack_HIH n 0 0 w = (Raise struct_error, w).
Proof.
  intros Hn. unfold struct_pack_HIH.
  replace (n <=? 65535) with false by (symmetry; apply Z.leb_gt; lia).
  now rewrite andb_false_r.
Qed.

Section Properties.
Context `{SLE} `{Frames} `{PyAsn1} `{Schema}.

(** ** start: validation *)

(** Lines 183-188: whenever the channel check fails, nothing else happens. *)
Lemma start_channel_check self st et sc tf mc vc w :
  negb mc && negb (truthy vc) = true ->
  start self st et sc tf mc vc w = (Raise (AttributeError start_err_channel), w).
Proof. intros Hc. unfold start. now rewrite Hc. Qed.

(** The first half of C1: no master channel and no virtual channel. *)
Lemma start_no_channel_selection self st et sc tf w :
  start self st et sc tf false None w = (Raise (AttributeError start_err_channel), w).
Proof. now apply start_channel_check. Qed.

(** C1: on the code, [start] with [master_channel = False] and
    [virtual_channel = 0] raises the no-channel-selection error and leaves
    the environment untouched, exactly as it does when the virtual channel
    is absent, although a virtual channel index (0) was supplied: the
    check of line 183 tests the truth value of the index, not its
    presence. *)
Theorem start_virtual_channel_0_rejected self st et sc tf w :
  start self st et sc tf false (Some 0) w
  = (Raise (AttributeError start_err_channel), w)
  /\ start self st et sc tf false (Some 0) w
     = start self st et sc tf false None w.
Proof.
  assert (start self st et sc tf false (Some 0) w
          = (Raise (AttributeError start_err_channel), w)) as Hzero
    by (apply start_channel_check; reflexivity).
  split; [exact Hzero|].
  rewrite Hzero. symmetry. apply start_channel_check. reflexivity.
Qed.

(** Lines 190-196. *)
Lemma start_scid_check self st et sc tf mc vc w :
  mc || truthy vc = true ->
  truthy (resolved sc (_scid self)) = false ->
  start self st et sc tf mc vc w = (Raise (AttributeError start_err_scid), w).
Proof.
  intros Hc Hs. unfold start. fold (resolved sc (_scid self)).
  replace (negb mc && negb (truthy vc)) with false
    by (destruct mc, (truthy vc); simpl in *; congruence).
  now rewrite Hs.
Qed.

(** Lines 198-205. *)
Lemma start_tfvn_check self st et sc tf mc vc w :
  mc || truthy vc = true ->
  truthy (resolved sc (_scid self)) = true ->
  truthy (resolved tf (_tfvn self)) = false ->
  start self st et sc tf mc vc w = (Raise (AttributeError start_err_tfvn), w).
Proof.
  intros Hc Hs Ht. unfold start.
  fold (resolved sc (_scid self)). fold (resolved tf (_tfvn self)).
  replace (negb mc && negb (truthy vc)) with false
    by (destruct mc, (truthy vc); simpl in *; congruence).
  now rewrite Hs, Ht.
Qed.

(** C2: on the code, a call of [start] that supplies the transfer frame
    version number 0 on a session without a default raises the
    missing-frame-version error, although the argument is present: line
    198 tests the truth value of the argument, not its presence. *)
Theorem start_frame_version_0_rejected self st et sc mc vc w :
  mc || truthy vc = true ->
  truthy (resolved sc (_scid self)) = true ->
  _tfvn self = None ->
  start self st et sc (Some 0) mc vc w
  = (Raise (AttributeError start_err_tfvn), w).
Proof.
  intros Hc Hs Hd. apply start_tfvn_check; try assumption.
  unfold resolved. simpl. now rewrite Hd.
Qed.

(** ** start: the PDU handed to the transport *)

(** Once the three checks pass, the credentials are selected, the invoke
    id is read, both day counts fit their field and the schema accepts
    the virtual channel (when one is used), [start] logs and transmits
    this PDU. *)
Lemma start_run self st et sc tf mc vc w cr w1 i w2 :
  mc || truthy vc = true ->
  mc = true \/ VcId_accepts vc = true ->
  truthy (resolved sc (_scid self)) = true ->
  truthy (resolved tf (_tfvn self)) = true ->
  Credential_Selector (_auth_level self) w = (Normal cr, w1) ->
  invoke_id w1 = (Normal i, w2) ->
  0 <= days (datetime_sub st CCSDS_EPOCH) <= 65535 ->
  0 <= days (datetime_sub et CCSDS_EPOCH) <= 65535 ->
  start self st et sc tf mc vc w
  = transmit
      (rcfStartInvocation
         (mkRcfStartInvocation cr i
            (known (ccsdsFormat
               (pack_be 2 (days (datetime_sub st CCSDS_EPOCH))
                ++ pack_be 4 0 ++ pack_be 2 0)))
            (known (ccsdsFormat
               (pack_be 2 (days (datetime_sub et CCSDS_EPOCH))
                ++ pack_be 4 0 ++ pack_be 2 0)))
            (mkGvcId (resolved sc (_scid self)) (resolved tf (_tfvn self))
               (if mc then masterChannel else virtualChannel vc))))
      (log_record INFO "Sending data start invocation ..." w2).
Proof.
  intros Hc Hv Hs Ht Hcr Hi Hst Het. unfold start.
  fold (resolved sc (_scid self)). fold (resolved tf (_tfvn self)).
  replace (negb mc && negb (truthy vc)) with false
    by (destruct mc, (truthy vc); simpl in *; congruence).
  rewrite Hs, Ht. simpl.
  fold (Credential_Selector (_auth_level self)).
  unfold bind at 1. rewrite Hcr.
  unfold bind at 1. rewrite Hi.
  unfold bind at 1. rewrite (struct_pack_HIH_days _ _ Hst).
  unfold bind at 1. rewrite (struct_pack_HIH_days _ _ Het).
  destruct mc; [reflexivity|].
  destruct Hv as [Hv|Hv]; [discriminate|]. rewrite Hv. reflexivity.
Qed.

(** Line 228: a virtual channel that the schema rejects makes [start]
    raise when the GvcId is filled in, after the credentials, the invoke
    id and both times; nothing is logged or transmitted. *)
Lemma start_vcid_check self st et sc tf vc w cr w1 i w2 :
  truthy vc = true ->
  VcId_accepts vc = false ->
  truthy (resolved sc (_scid self)) = true ->
  truthy (resolved tf (_tfvn self)) = true ->
  Credential_Selector (_auth_level self) w = (Normal cr, w1) ->
  invoke_id w1 = (Normal i, w2) ->
  0 <= days (datetime_sub st CCSDS_EPOCH) <= 65535 ->
  0 <= days (datetime_sub et CCSDS_EPOCH) <= 65535 ->
  start self st et sc tf false vc w = (Raise (VcId_error vc), w2).
Proof.
  intros Hc Hv Hs Ht Hcr Hi Hst Het. unfold start.
  fold (resolved sc (_scid self)). fold (resolved tf (_tfvn self)).
  rewrite Hc, Hs, Ht. simpl.
  fold (Credential_Selector (_auth_level self)).
  unfold bind at 1. rewrite Hcr.
  unfold bind at 1. rewrite Hi.
  unfold bind at 1. rewrite (struct_pack_HIH_days _ _ Hst).
  unfold bind at 1. rewrite (struct_pack_HIH_days _ _ Het).
  unfold bind at 1. now rewrite Hv.
Qed.

(** A start time whose day count exceeds the 16-bit field: [struct.pack]
    raises after the credentials and the invoke id were obtained, and
    nothing is logged or transmitted. *)
Lemma start_day_count_overflow self st et sc tf mc vc w cr w1 i w2 :
  mc || truthy vc = true ->
  truthy (resolved sc (_scid self)) = true ->
  truthy (resolved tf (_tfvn self)) = true ->
  Credential_Selector (_auth_level self) w = (Normal cr, w1) ->
  invoke_id w1 = (Normal i, w2) ->
  65535 < days (datetime_sub st CCSDS_EPOCH) ->
  start self st et sc tf mc vc w = (Raise struct_error, w2).
Proof.
  intros Hc Hs Ht Hcr Hi Hst. unfold start.
  fold (resolved sc (_scid self)). fold (resolved tf (_tfvn self)).
  replace (negb mc && negb (truthy vc)) with false
    by (destruct mc, (truthy vc); simpl in *; congruence).
  rewrite Hs, Ht. simpl.
  fold (Credential_Selector (_auth_level self)).
  unfold bind at 1. rewrite Hcr.
  unfold bind at 1. rewrite Hi.
  unfold bind at 1. now rewrite (struct_pack_HIH_overflow _ _ Hst).
Qed.

(** C2, the other face of the same test: with a session default, the
    supplied version number 0 is replaced by the default. *)
Lemma start_frame_version_0_uses_default self st et sc mc vc w cr w1 i w2 d :
  mc || truthy vc = true ->
  mc = true \/ VcId_accepts vc = true ->
  truthy (resolved sc (_scid self)) = true ->
  _tfvn self = Some d -> d <> 0 ->
  Credential_Selector (_auth_level self) w = (Normal cr, w1) ->
  invoke_id w1 = (Normal i, w2) ->
  0 <= days (datetime_sub st CCSDS_EPOCH) <= 65535 ->
  0 <= days (datetime_sub et CCSDS_EPOCH) <= 65535 ->
  exists pdu,
    start self st et sc (Some 0) mc vc w
    = transmit (rcfStartInvocation pdu)
        (log_record INFO "Sending data start invocation ..." w2)
    /\ versionNumber (requestedGvcId pdu) = Some d.
Proof.
  intros Hc Hv Hs Hd Hd0 Hcr Hi Hst Het.
  assert (resolved (Some 0) (_tfvn self) = Some d) as Hr
    by (unfold resolved; simpl; exact Hd).
  eexists. split.
  - apply (start_run self st et sc (Some 0) mc vc w cr w1 i w2);
      try assumption.
    rewrite Hr. simpl. now apply negb_true_iff, Z.eqb_neq.
  - simpl. exact Hr.
Qed.


(** With [master_channel] true the [virtual_channel] argument is never
    read. *)
Lemma start_master_channel_any_vc self st et sc tf vc :
  start self st et sc tf true vc = start self st et sc tf true None.
Proof. reflexivity. Qed.

(** C10: a [start] with [master_channel] true and a virtual channel index
    also supplied behaves exactly as if the index were absent; when the
    remaining checks pass it raises no error and the GvcId of the
    transmitted PDU carries the master-channel tag. *)
Theorem start_master_channel_ignores_virtual_channel
    self st et sc tf v w cr w1 i w2 :
  truthy (resolved sc (_scid self)) = true ->
  truthy (resolved tf (_tfvn self)) = true ->
  Credential_Selector (_auth_level self) w = (Normal cr, w1) ->
  invoke_id w1 = (Normal i, w2) ->
  0 <= days (datetime_sub st CCSDS_EPOCH) <= 65535 ->
  0 <= days (datetime_sub et CCSDS_EPOCH) <= 65535 ->
  start self st et sc tf true (Some v) w = start self st et sc tf true None w
  /\ exists pdu,
       start self st et sc tf true (Some v) w
       = transmit (rcfStartInvocation pdu)
           (log_record INFO "Sending data start invocation ..." w2)
       /\ vcId (requestedGvcId pdu) = masterChannel.
Proof.
  intros Hs Ht Hcr Hi Hst Het. split.
  - now rewrite start_master_channel_any_vc.
  - eexists. split.
    + apply (start_run self st et sc tf true (Some v) w cr w1 i w2);
        first [assumption | reflexivity | left; reflexivity].
    + reflexivity.
Qed.

(** ** schedule_status_report *)

(** For each of the three report types, once the credentials are selected
    and the invoke id is read, the PDU is logged and transmitted; the
    cycle is stored as given. *)
Lemma schedule_status_report_run self report_type cycle rt w cr w1 i w2 :
  ReportSchedule report_type cycle = Some rt ->
  Credential_Selector (_auth_level self) w = (Normal cr, w1) ->
  invoke_id w1 = (Normal i, w2) ->
  schedule_status_report self report_type cycle w
  = transmit
      (rcfScheduleStatusReportInvocation
         (mkRcfScheduleStatusReportInvocation cr i rt))
      (log_record INFO "Scheduling Status Report" w2).
Proof.
  intros Hrt Hcr Hi. unfold schedule_status_report.
  fold (Credential_Selector (_auth_level self)).
  unfold bind at 1. rewrite Hcr.
  unfold bind at 1. rewrite Hi.
  unfold ReportSchedule in Hrt.
  destruct (String.eqb report_type "immediately");
    [|destruct (String.eqb report_type "periodically");
      [destruct (ReportingCycle_accepts cycle)
      |destruct (String.eqb report_type "stop")]];
    inversion Hrt; subst; reflexivity.
Qed.



(** ** Credentials *)

Lemma Credential_Selector_all auth w cr w1 :
  Credential_Selector auth w = (Normal cr, w1) ->
  auth = "all" ->
  exists c, make_credentials w = (Normal c, w1) /\ cr = used c.
Proof.
  intros Hcr ->. unfold Credential_Selector, bind, ret in Hcr. simpl in Hcr.
  destruct (make_credentials w) as [[c|e] w'] eqn:E; inversion Hcr; subst.
  now exists c.
Qed.

Lemma Credential_Selector_other auth w cr w1 :
  Credential_Selector auth w = (Normal cr, w1) ->
  auth <> "all" ->
  cr = unused /\ w1 = w.
Proof.
  intros Hcr Hne. unfold Credential_Selector in Hcr.
  apply String.eqb_neq in Hne. rewrite Hne in Hcr.
  inversion Hcr; subst. now split.
Qed.

(** C8: the invokerCredentials of the PDU that [start] and
    [schedule_status_report] transmit (the schema accepting the virtual
    channel and the cycle they are given) is the value of the Credential
    Selector at the session's authentication level: used(c), with c the
    credentials that [make_credentials] returns, when the level is "all",
    and unused for any other level; no argument of either operation takes
    part in the choice. *)
Theorem invoker_credentials_follow_auth_level self w cr w1 i w2 :
  Credential_Selector (_auth_level self) w = (Normal cr, w1) ->
  invoke_id w1 = (Normal i, w2) ->
  (_auth_level self = "all" ->
     exists c, make_credentials w = (Normal c, w1) /\ cr = used c)
  /\ (_auth_level self <> "all" -> cr = unused)
  /\ (forall st et sc tf mc vc,
        mc || truthy vc = true ->
        mc = true \/ VcId_accepts vc = true ->
        truthy (resolved sc (_scid self)) = true ->
        truthy (resolved tf (_tfvn self)) = true ->
        0 <= days (datetime_sub st CCSDS_EPOCH) <= 65535 ->
        0 <= days (datetime_sub et CCSDS_EPOCH) <= 65535 ->
        exists pdu,
          start self st et sc tf mc vc w
          = transmit (rcfStartInvocation pdu)
              (log_record INFO "Sending data start invocation ..." w2)
          /\ start_invokerCredentials pdu = cr)
  /\ (forall report_type cycle rt,
        ReportSchedule report_type cycle = Some rt ->
        exists pdu,
          schedule_status_report self report_type cycle w
          = transmit (rcfScheduleStatusReportInvocation pdu)
              (log_record INFO "Scheduling Status Report" w2)
          /\ report_invokerCredentials pdu = cr).
Proof.
  intros Hcr Hi. split; [|split; [|split]].
  - intros Hall. eapply Credential_Selector_all; eauto.
  - intros Hne. now destruct (Credential_Selector_other _ _ _ _ Hcr Hne).
  - intros st et sc tf mc vc Hc Hv Hs Ht Hst Het.
    eexists. split; [eapply start_run; eauto | reflexivity].
  - intros report_type cycle rt Hrt.
    eexists. split; [eapply schedule_status_report_run; eauto | reflexivity].
Qed.

(** ** Dispatch *)

Lemma bind_ret_tt (c : M unit) (w : world) :
  (c ;; ret tt) w = c w.
Proof. unfold bind, ret. now destruct (c w) as [[[]|e] w']. Qed.

Lemma bind_lift {A B : Type} (o : outcome A) (k : A -> M B) (w : world) :
  (x <- lift o ;; k x) w
  = match o with Normal a => k a w | Raise e => (Raise e, w) end.
Proof. now destruct o. Qed.

Ltac step_lift :=
  match goal with
  | |- context [bind (lift ?o) _ _] => rewrite bind_lift; destruct o
  end.

Lemma normalize_key_cons (c : ascii) (s : string) :
  normalize_key (String c s) = String (upper_ascii c) s.
Proof. reflexivity. Qed.

Lemma normalize_key_empty : normalize_key "" = "".
Proof. reflexivity. Qed.

Lemma lookup_append_handler_eq key h (t : gmap string (list handler)) :
  append_handler key h t !! key = Some (default [] (t !! key) ++ [h]).
Proof. unfold append_handler. apply lookup_insert_eq. Qed.

Lemma lookup_append_handler_ne key h (t : gmap string (list handler)) k :
  key <> k -> append_handler key h t !! k = t !! k.
Proof. intros Hne. unfold append_handler. now apply lookup_insert_ne. Qed.

(** Two registrations under one key end up in that order, after the
    handlers already there. *)
Lemma append_handler_twice key h1 h2 (t : gmap string (list handler)) :
  append_handler key h2 (append_handler key h1 t) !! key
  = Some (default [] (t !! key) ++ [h1; h2]).
Proof.
  rewrite !lookup_append_handler_eq. simpl. now rewrite <- app_assoc.
Qed.

Lemma for_each_invoked_in_order (invoke : handler -> M unit) hs w :
  invoked_in_order invoke hs w (for_each hs invoke w).
Proof.
  revert w. induction hs as [|h hs IH]; intros w; simpl.
  - constructor.
  - unfold bind. destruct (invoke h w) as [[[]|e] w'] eqn:E.
    + eapply invoked_next; [exact E | apply IH].
    + eapply invoked_raises. exact E.
Qed.

Lemma handle_pdu_found self name component hs w :
  _handlers self !! normalize_key name = Some hs ->
  _handle_pdu self (Choice name component) w
  = for_each hs (fun h => call (_handle_pdu self) h (Choice name component)) w.
Proof. intros Hk. simpl. now rewrite Hk. Qed.

Lemma handle_pdu_not_found self name component w :
  _handlers self !! normalize_key name = None ->
  _handle_pdu self (Choice name component) w
  = (Normal tt, log_record ERROR (handle_pdu_err (normalize_key name)) w).
Proof. intros Hk. simpl. now rewrite Hk. Qed.

(** C5: [_handle_pdu] turns only the first character of the variant name
    of a decoded PDU to upper case (the rest of the name is kept); when
    the handler table has an entry for that key, its handlers are invoked
    with the PDU one after the other in list order, which is the order of
    registration (a handler that raises ends the loop); when it has none,
    one error record is logged, nothing else changes and the call returns
    normally, so no exception reaches the caller. *)
Theorem handle_pdu_dispatch :
  (forall c s, normalize_key (String c s) = String (upper_ascii c) s)
  /\ (forall key h1 h2 (t : gmap string (list handler)),
        append_handler key h2 (append_handler key h1 t) !! key
        = Some (default [] (t !! key) ++ [h1; h2]))
  /\ (forall self name component w,
        match _handlers self !! normalize_key name with
        | Some hs =>
            invoked_in_order
              (fun h => call (_handle_pdu self) h (Choice name component))
              hs w
              (_handle_pdu self (Choice name component) w)
        | None =>
            _handle_pdu self (Choice name component) w
            = (Normal tt, log_record ERROR (handle_pdu_err (normalize_key name)) w)
        end).
Proof.
  split; [|split].
  - exact normalize_key_cons.
  - exact append_handler_twice.
  - intros self name component w.
    destruct (_handlers self !! normalize_key name) as [hs|] eqn:Hk.
    + rewrite (handle_pdu_found _ _ _ _ _ Hk). apply for_each_invoked_in_order.
    + now apply handle_pdu_not_found.
Qed.

(** ** Transfer buffers *)

Lemma data_transfer_first_entry self entry rest w :
  _data_transfer_handler (_handle_pdu self)
    (Choice "rcfTransferBuffer" (SequenceOf (entry :: rest))) w
  = _handle_pdu self entry w.
Proof. reflexivity. Qed.

(** On a choice value the handler is the reading
    [self._handle_pdu(pdu['rcfTransferBuffer'][0])] through the generic
    accessors. *)
Lemma data_transfer_handler_accessors handle_pdu name component w :
  _data_transfer_handler handle_pdu (Choice name component) w
  = (buffer <- lift (getitem (Choice name component) "rcfTransferBuffer") ;;
     entry <- lift (getitem_0 buffer) ;;
     handle_pdu entry) w.
Proof.
  rewrite bind_lift. simpl.
  destruct (String.eqb name "rcfTransferBuffer"); [|reflexivity].
  rewrite bind_lift.
  destruct component as [| |[|entry rest]| | | |]; reflexivity.
Qed.

(** The entries that [RCF.__init__] adds to a table in which the three
    keys of the transfer-buffer path are unbound. *)
Lemma init_handlers_transfer_path auth (t : gmap string (list handler)) v sc tf :
  t !! "RcfTransferBuffer" = None ->
  t !! "AnnotatedFrame" = None ->
  t !! "SyncNotification" = None ->
  let self := RCF__init__ auth t v sc tf in
  _handlers self !! "RcfTransferBuffer" = Some [bound_data_transfer_handler]
  /\ _handlers self !! "AnnotatedFrame" = Some [bound_transfer_data_invoc_handler]
  /\ _handlers self !! "SyncNotification" = Some [bound_sync_notify_handler].
Proof.
  intros Hb Ha Hs self. subst self. unfold RCF__init__. cbn [_handlers].
  repeat split;
    rewrite !lookup_append_handler_ne by discriminate;
    rewrite lookup_append_handler_eq;
    rewrite !lookup_append_handler_ne by discriminate;
    first [now rewrite Hb | now rewrite Ha | now rewrite Hs].
Qed.

(** C6: the transfer-buffer handler redispatches the first entry of the
    buffer, and only it, through [_handle_pdu]: the entries after the
    first have no influence.  In a session set up by [RCF.__init__] a
    buffer PDU whose first entry is an annotatedFrame reaches
    [_transfer_data_invoc_handler] with that entry, and one whose first
    entry is a syncNotification reaches [_sync_notify_handler]. *)
Theorem data_transfer_redispatches_first_entry
    auth (t : gmap string (list handler)) v sc tf :
  t !! "RcfTransferBuffer" = None ->
  t !! "AnnotatedFrame" = None ->
  t !! "SyncNotification" = None ->
  (forall self entry rest w,
     call (_handle_pdu self) bound_data_transfer_handler
       (Choice "rcfTransferBuffer" (SequenceOf (entry :: rest))) w
     = _handle_pdu self entry w)
  /\ (forall frame rest w,
        _handle_pdu (RCF__init__ auth t v sc tf)
          (Choice "rcfTransferBuffer"
             (SequenceOf (Choice "annotatedFrame" frame :: rest))) w
        = _transfer_data_invoc_handler (Choice "annotatedFrame" frame) w)
  /\ (forall notify rest w,
        _handle_pdu (RCF__init__ auth t v sc tf)
          (Choice "rcfTransferBuffer"
             (SequenceOf (Choice "syncNotification" notify :: rest))) w
        = _sync_notify_handler (Choice "syncNotification" notify) w).
Proof.
  intros Hb Ha Hs.
  destruct (init_handlers_transfer_path auth t v sc tf Hb Ha Hs) as (Tb & Ta & Ts).
  split; [|split].
  - intros self entry rest w. apply data_transfer_first_entry.
  - intros frame rest w.
    rewrite (handle_pdu_found _ "rcfTransferBuffer" _ _ _ Tb).
    cbn [for_each]. rewrite bind_ret_tt. cbn [call].
    rewrite data_transfer_first_entry.
    rewrite (handle_pdu_found _ "annotatedFrame" _ _ _ Ta).
    cbn [for_each]. now rewrite bind_ret_tt.
  - intros notify rest w.
    rewrite (handle_pdu_found _ "rcfTransferBuffer" _ _ _ Tb).
    cbn [for_each]. rewrite bind_ret_tt. cbn [call].
    rewrite data_transfer_first_entry.
    rewrite (handle_pdu_found _ "syncNotification" _ _ _ Ts).
    cbn [for_each]. now rewrite bind_ret_tt.
Qed.

(** ** Frame forwarding *)

(** The data component is present and holds octets: one info record and
    one datagram with the first data segment of the decoded frame. *)
Lemma transfer_data_forwarded fields octets segment segments w w1 :
  lookup_component "data" fields = Some (OctetString octets) ->
  TMTransFrame octets w = (Normal (segment :: segments), w1) ->
  _transfer_data_invoc_handler (Choice "annotatedFrame" (Sequence fields)) w
  = (Normal tt,
     mkWorld
       (log w1 ++ [(INFO, "Sending " +:+ pretty (length segment) +:+
                          " bytes to telemetry port")])
       (telem_sock w1 ++ [(segment, ("localhost", 3076))])
       (conn w1) (invoke_count w1)).
Proof.
  intros Hd Hf. unfold _transfer_data_invoc_handler, bind, lift, ret. simpl.
  rewrite Hd. simpl. rewrite Hf. reflexivity.
Qed.

(** The data component is absent or holds no value: one info record. *)
Lemma transfer_data_dropped fields w :
  lookup_component "data" fields = None
  \/ lookup_component "data" fields = Some NoValue ->
  _transfer_data_invoc_handler (Choice "annotatedFrame" (Sequence fields)) w
  = (Normal tt, log_record INFO transfer_data_err w).
Proof.
  intros [Hd|Hd]; unfold _transfer_data_invoc_handler, bind, lift, ret; simpl;
    rewrite Hd; reflexivity.
Qed.

(** C7, as amended: for an AnnotatedFrame entry whose data component is
    present and holds octets that the frame decoder turns into a frame
    with at least one data segment, the frame forwarder logs one info
    record and sends exactly one datagram, the first data segment, to
    ("localhost", 3076); for an entry whose data component is absent or
    holds no value, no datagram is sent and exactly one record is logged,
    at level info (not a warning); nothing else changes. *)
Theorem transfer_data_invoc_forwarding fields w :
  (forall octets segment segments w1,
     lookup_component "data" fields = Some (OctetString octets) ->
     TMTransFrame octets w = (Normal (segment :: segments), w1) ->
     exists w',
       _transfer_data_invoc_handler (Choice "annotatedFrame" (Sequence fields)) w
       = (Normal tt, w')
       /\ telem_sock w' = telem_sock w1 ++ [(segment, ("localhost", 3076))]
       /\ log w' = log w1 ++ [(INFO, "Sending " +:+ pretty (length segment) +:+
                                     " bytes to telemetry port")]
       /\ conn w' = conn w1 /\ invoke_count w' = invoke_count w1)
  /\ (lookup_component "data" fields = None
      \/ lookup_component "data" fields = Some NoValue ->
      exists w',
        _transfer_data_invoc_handler (Choice "annotatedFrame" (Sequence fields)) w
        = (Normal tt, w')
        /\ telem_sock w' = telem_sock w
        /\ log w' = log w ++ [(INFO, transfer_data_err)]
        /\ conn w' = conn w /\ invoke_count w' = invoke_count w).
Proof.
  split.
  - intros octets segment segments w1 Hd Hf.
    eexists. split; [eapply transfer_data_forwarded; eauto|].
    repeat split.
  - intros Hd. eexists. split; [now apply transfer_data_dropped|].
    repeat split.
Qed.

(** ** Notifications *)

Lemma sync_notify_production_status fields i label w :
  lookup_component "notification" fields
  = Some (Choice "productionStatusChange" (Integer i)) ->
  py_index prod_status_labels i = Some label ->
  _sync_notify_handler (Choice "syncNotification" (Sequence fields)) w
  = (Normal tt, log_record INFO ("Production Status Report: " +:+ label) w).
Proof.
  intros Hn Hl. unfold _sync_notify_handler, bind, lift, ret. simpl.
  rewrite Hn. simpl. rewrite Hl. reflexivity.
Qed.

Lemma sync_notify_unknown fields kind payload w :
  lookup_component "notification" fields = Some (Choice kind payload) ->
  kind <> "lossFrameSync" ->
  kind <> "productionStatusChange" ->
  kind <> "excessiveDataBacklog" ->
  kind <> "endOfData" ->
  _sync_notify_handler (Choice "syncNotification" (Sequence fields)) w
  = (Normal tt,
     log_record INFO ("Received unknown sync notification: " +:+ kind) w).
Proof.
  intros Hn H1' H2' H3' H4'. unfold _sync_notify_handler, bind, lift, ret. simpl.
  rewrite Hn. simpl.
  apply String.eqb_neq in H1', H2', H3', H4'.
  now rewrite H1', H2', H3', H4'.
Qed.

(** A report that is computed without touching the environment is logged,
    unless its computation raises. *)
Lemma log_pure_report (c : M string) :
  (forall w, exists o, c w = (o, w)) ->
  forall w,
    (exists report, (report <- c ;; log_info report) w
                    = (Normal tt, log_record INFO report w))
    \/ (exists e, (report <- c ;; log_info report) w = (Raise e, w)).
Proof.
  intros Hc w. destruct (Hc w) as [[report|e] Hw]; unfold bind; rewrite Hw.
  - left. now exists report.
  - right. now exists e.
Qed.

(** Whatever the PDU, the handler either logs one info record and returns
    [None], or raises and leaves the environment as it was. *)
Lemma sync_notify_only_logs pdu w :
  (exists report,
     _sync_notify_handler pdu w = (Normal tt, log_record INFO report w))
  \/ (exists e, _sync_notify_handler pdu w = (Raise e, w)).
Proof.
  unfold _sync_notify_handler.
  do 4 (step_lift; [|right; eexists; reflexivity]).
  apply log_pure_report. clear w. intros w.
  repeat match goal with
         | |- context [String.eqb ?a ?b] => destruct (String.eqb a b)
         end;
    repeat step_lift;
    try match goal with
        | |- context [py_index ?l ?i] => destruct (py_index l i)
        end;
    eexists; reflexivity.
Qed.

(** C9: a production-status-change notification with payload 0, 1 or 2 is
    reported as "Production Status Report: running", "... interrupted" or
    "... halted"; a notification whose kind is none of lossFrameSync,
    productionStatusChange, excessiveDataBacklog and endOfData is reported
    with its raw kind name appended verbatim; and in every case the handler
    does nothing but log its report at info level: it returns no value and
    changes nothing else (or raises, changing nothing at all). *)
Theorem sync_notify_reports :
  (forall fields w,
     lookup_component "notification" fields
     = Some (Choice "productionStatusChange" (Integer 0)) ->
     _sync_notify_handler (Choice "syncNotification" (Sequence fields)) w
     = (Normal tt, log_record INFO "Production Status Report: running" w))
  /\ (forall fields w,
     lookup_component "notification" fields
     = Some (Choice "productionStatusChange" (Integer 1)) ->
     _sync_notify_handler (Choice "syncNotification" (Sequence fields)) w
     = (Normal tt, log_record INFO "Production Status Report: interrupted" w))
  /\ (forall fields w,
     lookup_component "notification" fields
     = Some (Choice "productionStatusChange" (Integer 2)) ->
     _sync_notify_handler (Choice "syncNotification" (Sequence fields)) w
     = (Normal tt, log_record INFO "Production Status Report: halted" w))
  /\ (forall fields kind payload w,
     lookup_component "notification" fields = Some (Choice kind payload) ->
     kind <> "lossFrameSync" ->
     kind <> "productionStatusChange" ->
     kind <> "excessiveDataBacklog" ->
     kind <> "endOfData" ->
     _sync_notify_handler (Choice "syncNotification" (Sequence fields)) w
     = (Normal tt,
        log_record INFO ("Received unknown sync notification: " +:+ kind) w))
  /\ (forall pdu w,
     (exists report,
        _sync_notify_handler pdu w = (Normal tt, log_record INFO report w))
     \/ (exists e, _sync_notify_handler pdu w = (Raise e, w))).
Proof.
  split; [|split; [|split; [|split]]].
  - intros fields w Hn.
    now apply (sync_notify_production_status fields 0 "running").
  - intros fields w Hn.
    now apply (sync_notify_production_status fields 1 "interrupted").
  - intros fields w Hn.
    now apply (sync_notify_production_status fields 2 "halted").
  - intros fields kind payload w. apply sync_notify_unknown.
  - exact sync_notify_only_logs.
Qed.

End Properties.

(** * The properties at work on the concrete session *)




Lemma start_frame_version_0_rejected_witness :
  true || truthy None = true
  /\ truthy (resolved (Some 42) (_scid (Loopback.bare_session "none"))) = true
  /\ _tfvn (Loopback.bare_session "none") = None
  /\ @start Loopback.sle Loopback.schema (Loopback.bare_session "none")
       (datetime_add_days Loopback.epoch 1) (datetime_add_days Loopback.epoch 2)
       (Some 42) (Some 0) true None Loopback.w0
     = (Raise (AttributeError start_err_tfvn), Loopback.w0).
Proof.
  do 3 (split; [reflexivity|]).
  apply (@start_frame_version_0_rejected Loopback.sle Loopback.schema); reflexivity.
Defined.


Lemma start_master_channel_ignores_virtual_channel_witness :
  truthy (resolved None (_scid (Loopback.session "none"))) = true
  /\ truthy (resolved None (_tfvn (Loopback.session "none"))) = true
  /\ @Credential_Selector Loopback.sle (_auth_level (Loopback.session "none"))
       Loopback.w0
     = (Normal unused, Loopback.w0)
  /\ @invoke_id Loopback.sle Loopback.w0 = (Normal 0, mkWorld [] [] [] 1)
  /\ 0 <= days (datetime_sub (datetime_add_days Loopback.epoch 1)
                  (@CCSDS_EPOCH Loopback.sle)) <= 65535
  /\ 0 <= days (datetime_sub (datetime_add_days Loopback.epoch 2)
                  (@CCSDS_EPOCH Loopback.sle)) <= 65535
  /\ (@start Loopback.sle Loopback.schema (Loopback.session "none")
        (datetime_add_days Loopback.epoch 1) (datetime_add_days Loopback.epoch 2)
        None None true (Some 7) Loopback.w0
      = @start Loopback.sle Loopback.schema (Loopback.session "none")
          (datetime_add_days Loopback.epoch 1) (datetime_add_days Loopback.epoch 2)
          None None true None Loopback.w0
      /\ exists pdu,
           @start Loopback.sle Loopback.schema (Loopback.session "none")
             (datetime_add_days Loopback.epoch 1)
             (datetime_add_days Loopback.epoch 2)
             None None true (Some 7) Loopback.w0
           = @transmit Loopback.sle (rcfStartInvocation pdu)
               (log_record INFO "Sending data start invocation ..."
                  (mkWorld [] [] [] 1))
           /\ vcId (requestedGvcId pdu) = masterChannel).
Proof.
  do 4 (split; [reflexivity|]).
  split; [vm_compute; split; discriminate|].
  split; [vm_compute; split; discriminate|].
  apply (@start_master_channel_ignores_virtual_channel Loopback.sle Loopback.schema
           (Loopback.session "none") _ _ None None 7 Loopback.w0 unused
           Loopback.w0 0 (mkWorld [] [] [] 1));
    first [reflexivity | vm_compute; split; discriminate].
Defined.

Lemma invoker_credentials_follow_auth_level_witness :
  @Credential_Selector Loopback.sle (_auth_level (Loopback.session "all"))
    Loopback.w0
  = (Normal (used [Byte.x2a]), Loopback.w0)
  /\ @invoke_id Loopback.sle Loopback.w0 = (Normal 0, mkWorld [] [] [] 1)
  /\ (exists pdu,
        @start Loopback.sle Loopback.schema (Loopback.session "all")
          (datetime_add_days Loopback.epoch 1) (datetime_add_days Loopback.epoch 2)
          None None false (Some 3) Loopback.w0
        = @transmit Loopback.sle (rcfStartInvocation pdu)
            (log_record INFO "Sending data start invocation ..."
               (mkWorld [] [] [] 1))
        /\ start_invokerCredentials pdu = used [Byte.x2a])
  /\ (exists pdu,
        @schedule_status_report Loopback.sle Loopback.schema
          (Loopback.session "all") "periodically" (Some 60) Loopback.w0
        = @transmit Loopback.sle (rcfScheduleStatusReportInvocation pdu)
            (log_record INFO "Scheduling Status Report" (mkWorld [] [] [] 1))
        /\ report_invokerCredentials pdu = used [Byte.x2a]).
Proof.
  do 2 (split; [reflexivity|]).
  destruct (@invoker_credentials_follow_auth_level Loopback.sle Loopback.schema
              (Loopback.session "all") Loopback.w0 (used [Byte.x2a])
              Loopback.w0 0 (mkWorld [] [] [] 1) eq_refl eq_refl)
    as (_ & _ & Hstart & Hreport).
  split.
  - apply Hstart;
      first [reflexivity | right; reflexivity | vm_compute; split; discriminate].
  - apply (Hreport "periodically" (Some 60) (periodically (Some 60))).
    reflexivity.
Defined.

Lemma data_transfer_redispatches_first_entry_witness :
  (∅ : gmap string (list handler)) !! "RcfTransferBuffer" = None
  /\ (∅ : gmap string (list handler)) !! "AnnotatedFrame" = None
  /\ (∅ : gmap string (list handler)) !! "SyncNotification" = None
  /\ @_handle_pdu Loopback.sle Loopback.frames Loopback.pyasn1
       (Loopback.session "none")
       (Choice "rcfTransferBuffer"
          (SequenceOf
             [Choice "annotatedFrame"
                (Sequence [("data", OctetString [Byte.x01; Byte.x02; Byte.x03])]);
              Choice "syncNotification"
                (Sequence [("notification", Choice "endOfData" Null)])]))
       Loopback.w0
     = @_transfer_data_invoc_handler Loopback.frames
         (Choice "annotatedFrame"
            (Sequence [("data", OctetString [Byte.x01; Byte.x02; Byte.x03])]))
         Loopback.w0.
Proof.
  do 3 (split; [reflexivity|]).
  destruct (@data_transfer_redispatches_first_entry Loopback.sle Loopback.frames
              Loopback.pyasn1 "none" ∅ None (Some 42) (Some 1))
    as (_ & Hframe & _); [reflexivity | reflexivity | reflexivity |].
  apply Hframe.
Defined.

(** C7, as stated, fails for an entry without data: the one record that is
    logged has level info, and no warning is logged. *)
Lemma transfer_data_absent_logs_info_not_warning :
  @_transfer_data_invoc_handler Loopback.frames
    (Choice "annotatedFrame" (Sequence [])) Loopback.w0
  = (Normal tt, mkWorld [(INFO, transfer_data_err)] [] [] 0)
  /\ forall msg,
       ~ In (WARNING, msg)
           (log (snd (@_transfer_data_invoc_handler Loopback.frames
                        (Choice "annotatedFrame" (Sequence [])) Loopback.w0))).
Proof.
  split; [reflexivity|].
  intros msg [Hin|[]]. discriminate Hin.
Qed.

Lemma transfer_data_invoc_forwarding_witness :
  (exists w',
     @_transfer_data_invoc_handler Loopback.frames
       (Choice "annotatedFrame"
          (Sequence [("data", OctetString [Byte.x01; Byte.x02; Byte.x03])]))
       Loopback.w0
     = (Normal tt, w')
     /\ telem_sock w'
        = telem_sock Loopback.w0
          ++ [([Byte.x01; Byte.x02; Byte.x03], ("localhost", 3076))]
     /\ log w'
        = log Loopback.w0
          ++ [(INFO, "Sending " +:+ pretty 3%nat +:+ " bytes to telemetry port")]
     /\ conn w' = conn Loopback.w0
     /\ invoke_count w' = invoke_count Loopback.w0)
  /\ (exists w',
        @_transfer_data_invoc_handler Loopback.frames
          (Choice "annotatedFrame" (Sequence [("data", NoValue)])) Loopback.w0
        = (Normal tt, w')
        /\ telem_sock w' = telem_sock Loopback.w0
        /\ log w' = log Loopback.w0 ++ [(INFO, transfer_data_err)]
        /\ conn w' = conn Loopback.w0
        /\ invoke_count w' = invoke_count Loopback.w0).
Proof.
  split.
  - apply (proj1 (@transfer_data_invoc_forwarding Loopback.frames
                    [("data", OctetString [Byte.x01; Byte.x02; Byte.x03])]
                    Loopback.w0)
             [Byte.x01; Byte.x02; Byte.x03] [Byte.x01; Byte.x02; Byte.x03] []
             Loopback.w0);
      reflexivity.
  - apply (proj2 (@transfer_data_invoc_forwarding Loopback.frames
                    [("data", NoValue)] Loopback.w0)).
    right. reflexivity.
Defined.

Lemma sync_notify_reports_witness :
  @_sync_notify_handler Loopback.pyasn1
    (Choice "syncNotification"
       (Sequence [("notification", Choice "productionStatusChange" (Integer 2))]))
    Loopback.w0
  = (Normal tt,
     log_record INFO "Production Status Report: halted" Loopback.w0)
  /\ @_sync_notify_handler Loopback.pyasn1
       (Choice "syncNotification"
          (Sequence [("notification", Choice "satelliteLost" Null)]))
       Loopback.w0
     = (Normal tt,
        log_record INFO "Received unknown sync notification: satelliteLost"
          Loopback.w0).
Proof.
  destruct (@sync_notify_reports Loopback.pyasn1) as (_ & _ & Hhalted & Hunknown & _).
  split.
  - apply Hhalted. reflexivity.
  - apply (Hunknown _ "satelliteLost" Null); first [reflexivity | discriminate].
Defined.

(** C1 on the concrete session: [start(..., master_channel=False,
    virtual_channel=0)]. *)
Example start_virtual_channel_0_on_session :
  @start Loopback.sle Loopback.schema (Loopback.session "none")
    (datetime_add_days Loopback.epoch 1) (datetime_add_days Loopback.epoch 2)
    None None false (Some 0) Loopback.w0
  = (Raise (AttributeError start_err_channel), Loopback.w0).
Proof. reflexivity. Qed.

(** C4 on the concrete session: no cycle, and the cycles next to the
    range, are rejected before anything is logged or sent; the cycles 2
    and 600 reach the provider. *)
Example schedule_status_report_cycles_on_session :
  let run cycle :=
    @schedule_status_report Loopback.sle Loopback.schema
      (Loopback.session "none") "periodically" cycle Loopback.w0 in
  run None = (Raise PyAsn1Error, mkWorld [] [] [] 1)
  /\ run (Some 1) = (Raise PyAsn1Error, mkWorld [] [] [] 1)
  /\ run (Some 601) = (Raise PyAsn1Error, mkWorld [] [] [] 1)
  /\ run (Some 2)
     = (Normal tt,
        mkWorld [(INFO, "Scheduling Status Report")] []
          [Byte.x01 :: pack_be 2 2] 1)
  /\ run (Some 600)
     = (Normal tt,
        mkWorld [(INFO, "Scheduling Status Report")] []
          [Byte.x01 :: pack_be 2 600] 1).
Proof. repeat split. Qed.

(** C5 on the concrete session: two callables registered under one key
    are both invoked, in the order of their registration, by one dispatch;
    a PDU without entry is logged as an error and skipped. *)
Example handle_pdu_two_handlers_on_session :
  let first := callable (fun _ => log_info "first") in
  let second := callable (fun _ => log_info "second") in
  let self :=
    mkRCF "none" "rtnChFrames" 5 None None
      (append_handler "RcfStatusReportInvocation" second
         (append_handler "RcfStatusReportInvocation" first ∅)) in
  @_handle_pdu Loopback.sle Loopback.frames Loopback.pyasn1 self
    (Choice "rcfStatusReportInvocation" Null) Loopback.w0
  = (Normal tt, mkWorld [(INFO, "first"); (INFO, "second")] [] [] 0)
  /\ @_handle_pdu Loopback.sle Loopback.frames Loopback.pyasn1 self
       (Choice "rcfBindReturn" Null) Loopback.w0
     = (Normal tt,
        mkWorld [(ERROR, handle_pdu_err "RcfBindReturn")] [] [] 0).
Proof. split; vm_compute; reflexivity. Qed.

(** * Further properties of the operations *)

Lemma struct_pack_HIH_out_of_range (n : Z) (w : world) :
  n < 0 \/ 65535 < n -> struct_pack_HIH n 0 0 w = (Raise struct_error, w).
Proof.
  intros [Hn|Hn]; unfold struct_pack_HIH.
  - replace (0 <=? n) with false by (symmetry; apply Z.leb_gt; lia).
    reflexivity.
  - now apply struct_pack_HIH_overflow.
Qed.

(** The day count of a difference is the difference of the dates once the
    time of day of the minuend is not earlier than that of the subtrahend. *)
Lemma days_of_datetime_sub (a b : datetime) :
  0 <= time_of_day a - time_of_day b < 86400 * 1000000 ->
  days (datetime_sub a b) = toordinal a - toordinal b.
Proof.
  unfold time_of_day. intros Ht.
  unfold datetime_sub, timedelta_new. cbn [days].
  match goal with
  | |- ?total / _ = _ =>
      replace total
        with ((toordinal a - toordinal b) * (86400 * 1000000)
              + ((second a + minute a * 60 + hour a * 3600) * 1000000
                 + microsecond a
                 - ((second b + minute b * 60 + hour b * 3600) * 1000000
                    + microsecond b))) by lia
  end.
  rewrite Z.div_add_l by lia. rewrite Z.div_small by lia. lia.
Qed.

Section MoreOperations.
Context `{SLE} `{Schema}.

(** X1: a [start] whose channel is selected but which gets no non-zero
    spacecraft id, neither as argument nor as session default, raises the
    missing-spacecraft-id error before anything is done. *)
Theorem start_missing_spacecraft_id self st et sc tf mc vc w :
  mc || truthy vc = true ->
  truthy sc = false ->
  truthy (_scid self) = false ->
  start self st et sc tf mc vc w = (Raise (AttributeError start_err_scid), w).
Proof.
  intros Hc Hsc Hd. apply start_scid_check; [exact Hc|].
  unfold resolved. now rewrite Hsc.
Qed.

(** X2: a [start] whose channel and spacecraft id are settled but which
    gets no non-zero frame version number, neither as argument nor as
    session default, raises the missing-frame-version error before
    anything is done. *)
Theorem start_missing_frame_version self st et sc tf mc vc w :
  mc || truthy vc = true ->
  truthy (resolved sc (_scid self)) = true ->
  truthy tf = false ->
  truthy (_tfvn self) = false ->
  start self st et sc tf mc vc w = (Raise (AttributeError start_err_tfvn), w).
Proof.
  intros Hc Hs Htf Hd. apply start_tfvn_check; [exact Hc | exact Hs |].
  unfold resolved. now rewrite Htf.
Qed.

(** X3: non-zero arguments win over the session defaults: a [start] on a
    virtual channel [v] that the schema accepts, with explicit spacecraft
    id [a] and frame version [b], requests the GvcId
    (a, b, virtualChannel v) whatever the session defaults are, under the
    invoke id read from the session. *)
Theorem start_arguments_override_defaults self st et a b v w cr w1 i w2 :
  a <> 0 -> b <> 0 -> v <> 0 ->
  VcId_accepts (Some v) = true ->
  Credential_Selector (_auth_level self) w = (Normal cr, w1) ->
  invoke_id w1 = (Normal i, w2) ->
  0 <= days (datetime_sub st CCSDS_EPOCH) <= 65535 ->
  0 <= days (datetime_sub et CCSDS_EPOCH) <= 65535 ->
  exists pdu,
    start self st et (Some a) (Some b) false (Some v) w
    = transmit (rcfStartInvocation pdu)
        (log_record INFO "Sending data start invocation ..." w2)
    /\ requestedGvcId pdu = mkGvcId (Some a) (Some b) (virtualChannel (Some v))
    /\ start_invokeId pdu = i.
Proof.
  intros Ha Hb Hv Hacc Hcr Hi Hst Het.
  assert (truthy (Some a) = true) as Ta by (simpl; now apply negb_true_iff, Z.eqb_neq).
  assert (truthy (Some b) = true) as Tb by (simpl; now apply negb_true_iff, Z.eqb_neq).
  assert (truthy (Some v) = true) as Tv by (simpl; now apply negb_true_iff, Z.eqb_neq).
  eexists. split.
  - apply (start_run self st et (Some a) (Some b) false (Some v) w cr w1 i w2);
      try assumption.
    + now right.
    + unfold resolved. now rewrite Ta.
    + unfold resolved. now rewrite Tb.
  - unfold resolved. rewrite Ta, Tb. split; reflexivity.
Qed.


(** X5: a start time before the CCSDS epoch or more than 65535 days after
    it makes [start] raise [struct.error]: the credentials were made and
    the invoke id was read, but nothing is logged or transmitted. *)
Theorem start_time_out_of_range self st et sc tf mc vc w cr w1 i w2 :
  mc || truthy vc = true ->
  truthy (resolved sc (_scid self)) = true ->
  truthy (resolved tf (_tfvn self)) = true ->
  Credential_Selector (_auth_level self) w = (Normal cr, w1) ->
  invoke_id w1 = (Normal i, w2) ->
  days (datetime_sub st CCSDS_EPOCH) < 0
  \/ 65535 < days (datetime_sub st CCSDS_EPOCH) ->
  start self st et sc tf mc vc w = (Raise struct_error, w2).
Proof.
  intros Hc Hs Ht Hcr Hi Hst. unfold start.
  fold (resolved sc (_scid self)). fold (resolved tf (_tfvn self)).
  replace (negb mc && negb (truthy vc)) with false
    by (destruct mc, (truthy vc); simpl in *; congruence).
  rewrite Hs, Ht. simpl.
  fold (Credential_Selector (_auth_level self)).
  unfold bind at 1. rewrite Hcr.
  unfold bind at 1. rewrite Hi.
  unfold bind at 1. now rewrite (struct_pack_HIH_out_of_range _ _ Hst).
Qed.

(** X6: the same holds for the end time when the start time fits: the
    failure of the second [struct.pack] leaves no log record and no
    transmission. *)
Theorem stop_time_out_of_range self st et sc tf mc vc w cr w1 i w2 :
  mc || truthy vc = true ->
  truthy (resolved sc (_scid self)) = true ->
  truthy (resolved tf (_tfvn self)) = true ->
  Credential_Selector (_auth_level self) w = (Normal cr, w1) ->
  invoke_id w1 = (Normal i, w2) ->
  0 <= days (datetime_sub st CCSDS_EPOCH) <= 65535 ->
  days (datetime_sub et CCSDS_EPOCH) < 0
  \/ 65535 < days (datetime_sub et CCSDS_EPOCH) ->
  start self st et sc tf mc vc w = (Raise struct_error, w2).
Proof.
  intros Hc Hs Ht Hcr Hi Hst Het. unfold start.
  fold (resolved sc (_scid self)). fold (resolved tf (_tfvn self)).
  replace (negb mc && negb (truthy vc)) with false
    by (destruct mc, (truthy vc); simpl in *; congruence).
  rewrite Hs, Ht. simpl.
  fold (Credential_Selector (_auth_level self)).
  unfold bind at 1. rewrite Hcr.
  unfold bind at 1. rewrite Hi.
  unfold bind at 1. rewrite (struct_pack_HIH_days _ _ Hst).
  unfold bind at 1. now rewrite (struct_pack_HIH_out_of_range _ _ Het).
Qed.

(** X7: [start] keeps the date of its two timestamps only: when neither
    time of day is earlier than that of the epoch, the call behaves as
    the call with both timestamps moved to the epoch's time of day. *)
Theorem start_discards_time_of_day self st et sc tf mc vc :
  0 <= time_of_day st - time_of_day CCSDS_EPOCH < 86400 * 1000000 ->
  0 <= time_of_day et - time_of_day CCSDS_EPOCH < 86400 * 1000000 ->
  start self st et sc tf mc vc
  = start self
      (datetime_add_days CCSDS_EPOCH (toordinal st - toordinal CCSDS_EPOCH))
      (datetime_add_days CCSDS_EPOCH (toordinal et - toordinal CCSDS_EPOCH))
      sc tf mc vc.
Proof.
  intros Hst Het. unfold start.
  rewrite !days_after_epoch.
  rewrite (days_of_datetime_sub st CCSDS_EPOCH Hst).
  rewrite (days_of_datetime_sub et CCSDS_EPOCH Het).
  reflexivity.
Qed.

(** X8: a report type other than "immediately", "periodically" and "stop"
    makes [schedule_status_report] raise ValueError naming the type; the
    credentials were made and the invoke id was read before the test, and
    nothing is logged or transmitted. *)
Theorem schedule_status_report_unknown_type self report_type cycle w cr w1 i w2 :
  report_type <> "immediately" ->
  report_type <> "periodically" ->
  report_type <> "stop" ->
  Credential_Selector (_auth_level self) w = (Normal cr, w1) ->
  invoke_id w1 = (Normal i, w2) ->
  schedule_status_report self report_type cycle w
  = (Raise (ValueError ("Unknown report type: " +:+ report_type)), w2).
Proof.
  intros H1' H2' H3' Hcr Hi. unfold schedule_status_report.
  fold (Credential_Selector (_auth_level self)).
  unfold bind at 1. rewrite Hcr.
  unfold bind at 1. rewrite Hi.
  apply String.eqb_neq in H1', H2', H3'.
  now rewrite H1', H2', H3'.
Qed.

(** X9: the cycle is read for the report type "periodically" only: for
    every other report type the call does not depend on it. *)
Theorem schedule_status_report_ignores_cycle self report_type cycle cycle' :
  report_type <> "periodically" ->
  schedule_status_report self report_type cycle
  = schedule_status_report self report_type cycle'.
Proof.
  intros Hne. unfold schedule_status_report.
  apply String.eqb_neq in Hne. now rewrite Hne.
Qed.

End MoreOperations.

(** * Further properties of the dispatch *)

(** Case analysis of a key against the keys of [RCF.__init__], in the
    order of [registered_handler]. *)
Ltac init_lookup_cases key :=
  repeat match goal with
         | |- context [String.eqb key ?k] =>
             destruct (String.eqb_spec key k) as [->|?];
             [ rewrite ?lookup_append_handler_ne by discriminate;
               rewrite lookup_append_handler_eq;
               rewrite ?lookup_append_handler_ne by discriminate | ]
         end.

(** A key of [RCF.__init__] that the base class left unbound holds the
    registered method alone. *)
Lemma lookup_init_registered auth (t : gmap string (list handler)) v sc tf key h :
  registered_handler key = Some h ->
  t !! key = None ->
  _handlers (RCF__init__ auth t v sc tf) !! key = Some [h].
Proof.
  unfold RCF__init__, registered_handler. cbn [_handlers].
  intros Hh Ht. revert Hh.
  init_lookup_cases key;
    intros Hh; inversion Hh; subst; now rewrite Ht.
Qed.

(** X10: the handler table that [RCF.__init__] leaves: under each of its
    eleven keys the handlers that the base class had put there, followed
    by the one method registered for the key; every other key is as the
    base class left it. *)
Theorem init_handler_table auth (t : gmap string (list handler)) v sc tf key :
  _handlers (RCF__init__ auth t v sc tf) !! key
  = match registered_handler key with
    | Some h => Some (default [] (t !! key) ++ [h])
    | None => t !! key
    end.
Proof.
  unfold RCF__init__, registered_handler. cbn [_handlers].
  init_lookup_cases key; try reflexivity.
  rewrite !lookup_append_handler_ne by congruence. reflexivity.
Qed.

Section MoreDispatch.
Context `{SLE} `{Frames} `{PyAsn1}.

(** X11: in a session set up by [RCF.__init__], each return or report PDU
    of the provider is handed to the method of the base class that
    answers it, with the PDU's own variant name as provider key. *)
Theorem return_pdus_delegated_to_base
    auth (t : gmap string (list handler)) v sc tf name base component w :
  In (name, base) delegations ->
  t !! normalize_key name = None ->
  _handle_pdu (RCF__init__ auth t v sc tf) (Choice name component) w
  = base (Choice name component) name w.
Proof.
  intros Hin Ht.
  assert (forall h,
            registered_handler (normalize_key name) = Some h ->
            _handle_pdu (RCF__init__ auth t v sc tf) (Choice name component) w
            = call (_handle_pdu (RCF__init__ auth t v sc tf)) h
                (Choice name component) w) as Hcall.
  { intros h Hh.
    rewrite (handle_pdu_found _ name component [h]).
    - cbn [for_each]. apply bind_ret_tt.
    - now apply lookup_init_registered. }
  unfold delegations in Hin. simpl in Hin.
  repeat (destruct Hin as [Hin|Hin];
          [inversion Hin; subst; now rewrite (Hcall _ eq_refl)|]).
  contradiction.
Qed.

(** X12: a handler that raises ends the dispatch of the PDU: when the
    handlers before it return normally, the exception leaves [_handle_pdu]
    with the environment as the raising handler left it, and the handlers
    registered after it are not invoked. *)
Theorem handle_pdu_stops_at_raising_handler
    self name component before h after w w1 e w2 :
  _handlers self !! normalize_key name = Some (before ++ h :: after) ->
  invoked_in_order
    (fun h' => call (_handle_pdu self) h' (Choice name component))
    before w (Normal tt, w1) ->
  call (_handle_pdu self) h (Choice name component) w1 = (Raise e, w2) ->
  _handle_pdu self (Choice name component) w = (Raise e, w2).
Proof.
  intros Hk Hbefore Hh. rewrite (handle_pdu_found _ _ _ _ _ Hk).
  clear Hk. revert w Hbefore.
  induction before as [|b before IH]; intros w Hbefore.
  - inversion Hbefore; subst. simpl. unfold bind. now rewrite Hh.
  - inversion Hbefore as [|? ? ? w' ? Hb Hrest|]; subst.
    simpl. unfold bind at 1. rewrite Hb. now apply IH.
Qed.

(** X13: the case of the first letter of a variant name does not matter
    to the lookup: a name and the name with its first character in upper
    case have the same key, and normalising twice changes nothing. *)
Theorem normalize_key_first_letter_case (c : ascii) (s : string) :
  normalize_key (String (upper_ascii c) s) = normalize_key (String c s)
  /\ normalize_key (normalize_key (String c s)) = normalize_key (String c s).
Proof.
  assert (upper_ascii (upper_ascii c) = upper_ascii c) as Hc
    by (destruct c as [[] [] [] [] [] [] [] []]; reflexivity).
  rewrite !normalize_key_cons. now rewrite Hc.
Qed.

End MoreDispatch.

(** * Further properties of the handlers *)

Section MoreHandlers.
Context `{SLE} `{Frames} `{PyAsn1}.

(** X14: the frame forwarder does not catch what the frame decoder
    raises: the exception propagates and the forwarder itself logs and
    sends nothing. *)
Theorem transfer_data_decoder_failure fields octets e w w1 :
  lookup_component "data" fields = Some (OctetString octets) ->
  TMTransFrame octets w = (Raise e, w1) ->
  _transfer_data_invoc_handler (Choice "annotatedFrame" (Sequence fields)) w
  = (Raise e, w1).
Proof.
  intros Hd Hf. unfold _transfer_data_invoc_handler, bind, lift, ret. simpl.
  rewrite Hd. simpl. rewrite Hf. reflexivity.
Qed.

(** X15: a production status outside -3..2 makes the notification handler
    raise IndexError; nothing is logged. *)
Theorem sync_notify_status_out_of_range fields i w :
  lookup_component "notification" fields
  = Some (Choice "productionStatusChange" (Integer i)) ->
  i < -3 \/ 2 < i ->
  _sync_notify_handler (Choice "syncNotification" (Sequence fields)) w
  = (Raise IndexError, w).
Proof.
  intros Hn Hi. unfold _sync_notify_handler, bind, lift, ret. simpl.
  rewrite Hn. simpl.
  assert (py_index prod_status_labels i = None) as Hl.
  { unfold py_index, prod_status_labels. cbn [length].
    change (Z.of_nat 3) with 3.
    destruct (Z.leb_spec 0 i), (Z.ltb_spec i 3), (Z.leb_spec (- (3)) i),
      (Z.ltb_spec i 0); simpl; try reflexivity; lia. }
  now rewrite Hl.
Qed.

(** X16: a negative production status -3, -2 or -1 is not rejected: as a
    Python index it counts from the end of the label list, so the report
    is that of the status 3 higher (-1 is reported as halted). *)
Theorem sync_notify_status_negative_index fields fields' i w :
  -3 <= i <= -1 ->
  lookup_component "notification" fields
  = Some (Choice "productionStatusChange" (Integer i)) ->
  lookup_component "notification" fields'
  = Some (Choice "productionStatusChange" (Integer (i + 3))) ->
  _sync_notify_handler (Choice "syncNotification" (Sequence fields)) w
  = _sync_notify_handler (Choice "syncNotification" (Sequence fields')) w.
Proof.
  intros Hi Hn Hn'.
  assert (i = -3 \/ i = -2 \/ i = -1) as [->|[->| ->]] by lia;
    unfold _sync_notify_handler, bind, lift, ret; simpl;
    rewrite Hn, Hn'; reflexivity.
Qed.

(** X17: the notifications excessiveDataBacklog and endOfData are
    reported by a fixed sentence each, whatever their payload. *)
Theorem sync_notify_fixed_reports fields payload w :
  (lookup_component "notification" fields
   = Some (Choice "excessiveDataBacklog" payload) ->
   _sync_notify_handler (Choice "syncNotification" (Sequence fields)) w
   = (Normal tt, log_record INFO "Excessive Data Backlog Detected" w))
  /\ (lookup_component "notification" fields
      = Some (Choice "endOfData" payload) ->
      _sync_notify_handler (Choice "syncNotification" (Sequence fields)) w
      = (Normal tt, log_record INFO "End of Data Received" w)).
Proof.
  split; intros Hn; unfold _sync_notify_handler, bind, lift, ret; simpl;
    rewrite Hn; reflexivity.
Qed.

(** X18: a loss of frame synchronisation is reported with the lock time
    and the carrier, sub-carrier and symbol-sync lock status of the
    notification, printed in that order on four lines under their
    headings. *)
Theorem sync_notify_loss_frame_sync
    fields lock time carrier subcarrier symbol w :
  lookup_component "notification" fields
  = Some (Choice "lossFrameSync" (Sequence lock)) ->
  lookup_component "time" lock = Some time ->
  lookup_component "carrierLockStatus" lock = Some carrier ->
  lookup_component "subcarrierLockStatus" lock = Some subcarrier ->
  lookup_component "symbolSynclockStatus" lock = Some symbol ->
  _sync_notify_handler (Choice "syncNotification" (Sequence fields)) w
  = (Normal tt,
     log_record INFO
       ("Frame Sync has been lost. See report below ... " +:+
        String "010" (String "010" "") +:+
        "Lock Status Report" +:+ String "010" "" +:+
        "Lock Time: " +:+ asn1_str time +:+ String "010" "" +:+
        "Carrier Lock Status: " +:+ asn1_str carrier +:+ String "010" "" +:+
        "Sub-Carrier Lock Status: " +:+ asn1_str subcarrier +:+
        String "010" "" +:+
        "Symbol Sync Lock Status: " +:+ asn1_str symbol)
       w).
Proof.
  intros Hn Ht Hc Hs Hy. unfold _sync_notify_handler, bind, lift, ret. simpl.
  rewrite Hn. simpl. rewrite Ht, Hc, Hs, Hy. reflexivity.
Qed.

(** The first entry of a transfer buffer in a session set up by
    [RCF.__init__]. *)
Lemma init_transfer_buffer_entry
    auth (t : gmap string (list handler)) v sc tf kind h entry rest w :
  t !! "RcfTransferBuffer" = None ->
  _handlers (RCF__init__ auth t v sc tf) !! normalize_key kind = Some [h] ->
  _handle_pdu (RCF__init__ auth t v sc tf)
    (Choice "rcfTransferBuffer" (SequenceOf (Choice kind entry :: rest))) w
  = call (_handle_pdu (RCF__init__ auth t v sc tf)) h (Choice kind entry) w.
Proof.
  intros Hb Hk.
  rewrite (handle_pdu_found _ "rcfTransferBuffer" _ [bound_data_transfer_handler]).
  - cbn [for_each]. rewrite bind_ret_tt. cbn [call].
    rewrite data_transfer_first_entry.
    rewrite (handle_pdu_found _ kind _ _ _ Hk).
    cbn [for_each]. apply bind_ret_tt.
  - change (normalize_key "rcfTransferBuffer") with "RcfTransferBuffer".
    unfold RCF__init__. cbn [_handlers].
    rewrite !lookup_append_handler_ne by discriminate.
    rewrite lookup_append_handler_eq.
    rewrite !lookup_append_handler_ne by discriminate.
    now rewrite Hb.
Qed.

(** X19: end to end, a transfer-buffer PDU whose first entry is an
    annotated frame with data puts exactly one datagram on the telemetry
    socket, the first data segment of the decoded frame, addressed to
    ("localhost", 3076), and logs its length; the entries after the first
    add nothing. *)
Theorem transfer_buffer_frame_forwarded
    auth (t : gmap string (list handler)) v sc tf
    fields rest octets segment segments w w1 :
  t !! "RcfTransferBuffer" = None ->
  t !! "AnnotatedFrame" = None ->
  t !! "SyncNotification" = None ->
  lookup_component "data" fields = Some (OctetString octets) ->
  TMTransFrame octets w = (Normal (segment :: segments), w1) ->
  _handle_pdu (RCF__init__ auth t v sc tf)
    (Choice "rcfTransferBuffer"
       (SequenceOf (Choice "annotatedFrame" (Sequence fields) :: rest))) w
  = (Normal tt,
     mkWorld
       (log w1 ++ [(INFO, "Sending " +:+ pretty (length segment) +:+
                          " bytes to telemetry port")])
       (telem_sock w1 ++ [(segment, ("localhost", 3076))])
       (conn w1) (invoke_count w1)).
Proof.
  intros Hb Ha Hs Hd Hf.
  destruct (init_handlers_transfer_path auth t v sc tf Hb Ha Hs) as (_ & Ta & _).
  rewrite (init_transfer_buffer_entry auth t v sc tf "annotatedFrame"
             bound_transfer_data_invoc_handler _ _ _ Hb Ta).
  cbn [call]. now apply transfer_data_forwarded with (octets := octets) (segments := segments).
Qed.

(** X20: end to end, a transfer-buffer PDU whose first entry is an
    annotated frame without data sends no datagram: one info record is
    logged and nothing else changes. *)
Theorem transfer_buffer_frame_without_data
    auth (t : gmap string (list handler)) v sc tf fields rest w :
  t !! "RcfTransferBuffer" = None ->
  t !! "AnnotatedFrame" = None ->
  t !! "SyncNotification" = None ->
  lookup_component "data" fields = None
  \/ lookup_component "data" fields = Some NoValue ->
  _handle_pdu (RCF__init__ auth t v sc tf)
    (Choice "rcfTransferBuffer"
       (SequenceOf (Choice "annotatedFrame" (Sequence fields) :: rest))) w
  = (Normal tt, log_record INFO transfer_data_err w).
Proof.
  intros Hb Ha Hs Hd.
  destruct (init_handlers_transfer_path auth t v sc tf Hb Ha Hs) as (_ & Ta & _).
  rewrite (init_transfer_buffer_entry auth t v sc tf "annotatedFrame"
             bound_transfer_data_invoc_handler _ _ _ Hb Ta).
  cbn [call]. now apply transfer_data_dropped.
Qed.

(** X21: end to end, a transfer-buffer PDU whose first entry notifies a
    production status change with a status that indexes the label list
    logs the production status report with that label and touches
    neither socket. *)
Theorem transfer_buffer_status_notification
    auth (t : gmap string (list handler)) v sc tf fields rest i label w :
  t !! "RcfTransferBuffer" = None ->
  t !! "AnnotatedFrame" = None ->
  t !! "SyncNotification" = None ->
  lookup_component "notification" fields
  = Some (Choice "productionStatusChange" (Integer i)) ->
  py_index prod_status_labels i = Some label ->
  _handle_pdu (RCF__init__ auth t v sc tf)
    (Choice "rcfTransferBuffer"
       (SequenceOf (Choice "syncNotification" (Sequence fields) :: rest))) w
  = (Normal tt,
     log_record INFO ("Production Status Report: " +:+ label) w).
Proof.
  intros Hb Ha Hs Hn Hl.
  destruct (init_handlers_transfer_path auth t v sc tf Hb Ha Hs) as (_ & _ & Ts).
  rewrite (init_transfer_buffer_entry auth t v sc tf "syncNotification"
             bound_sync_notify_handler _ _ _ Hb Ts).
  cbn [call]. now apply sync_notify_production_status with (i := i).
Qed.

End MoreHandlers.

(** * The further properties at work on the concrete session *)

Lemma start_missing_spacecraft_id_witness :
  @start Loopback.sle Loopback.schema (Loopback.bare_session "none")
    (datetime_add_days Loopback.epoch 1) (datetime_add_days Loopback.epoch 2)
    (Some 0) (Some 1) true None Loopback.w0
  = (Raise (AttributeError start_err_scid), Loopback.w0).
Proof.
  apply (@start_missing_spacecraft_id Loopback.sle Loopback.schema); reflexivity.
Defined.

Lemma start_missing_frame_version_witness :
  @start Loopback.sle Loopback.schema (Loopback.bare_session "none")
    (datetime_add_days Loopback.epoch 1) (datetime_add_days Loopback.epoch 2)
    (Some 42) None false (Some 3) Loopback.w0
  = (Raise (AttributeError start_err_tfvn), Loopback.w0).
Proof.
  apply (@start_missing_frame_version Loopback.sle Loopback.schema); reflexivity.
Defined.

Lemma start_arguments_override_defaults_witness :
  exists pdu,
    @start Loopback.sle Loopback.schema (Loopback.session "none")
      (datetime_add_days Loopback.epoch 1) (datetime_add_days Loopback.epoch 2)
      (Some 7) (Some 2) false (Some 3) Loopback.w0
    = @transmit Loopback.sle (rcfStartInvocation pdu)
        (log_record INFO "Sending data start invocation ..." (mkWorld [] [] [] 1))
    /\ requestedGvcId pdu = mkGvcId (Some 7) (Some 2) (virtualChannel (Some 3))
    /\ start_invokeId pdu = 0.
Proof.
  apply (@start_arguments_override_defaults Loopback.sle Loopback.schema
           (Loopback.session "none")
           _ _ 7 2 3 Loopback.w0 unused Loopback.w0 0 (mkWorld [] [] [] 1));
    first [lia | reflexivity | vm_compute; split; discriminate].
Defined.


Lemma start_time_out_of_range_witness :
  @start Loopback.sle Loopback.schema (Loopback.session "none")
    (datetime_add_days Loopback.epoch (-1)) (datetime_add_days Loopback.epoch 2)
    None None true None Loopback.w0
  = (Raise struct_error, mkWorld [] [] [] 1).
Proof.
  apply (@start_time_out_of_range Loopback.sle Loopback.schema
           (Loopback.session "none")
           _ _ None None true None Loopback.w0 unused Loopback.w0 0);
    first [reflexivity | left; reflexivity].
Defined.

Lemma stop_time_out_of_range_witness :
  @start Loopback.sle Loopback.schema (Loopback.session "none")
    (datetime_add_days Loopback.epoch 1) (datetime_add_days Loopback.epoch 70000)
    None None true None Loopback.w0
  = (Raise struct_error, mkWorld [] [] [] 1).
Proof.
  apply (@stop_time_out_of_range Loopback.sle Loopback.schema
           (Loopback.session "none")
           _ _ None None true None Loopback.w0 unused Loopback.w0 0);
    first [reflexivity | vm_compute; split; discriminate | right; reflexivity].
Defined.

Lemma start_discards_time_of_day_witness :
  @start Loopback.sle Loopback.schema (Loopback.session "none")
    (mkDatetime 714781 23 59 59 999999) (mkDatetime 714790 12 0 0 0)
    None None true None
  = @start Loopback.sle Loopback.schema (Loopback.session "none")
      (datetime_add_days Loopback.epoch 1) (datetime_add_days Loopback.epoch 10)
      None None true None.
Proof.
  apply (@start_discards_time_of_day Loopback.sle Loopback.schema
           (Loopback.session "none")
           (mkDatetime 714781 23 59 59 999999) (mkDatetime 714790 12 0 0 0));
    vm_compute; (split; [discriminate | reflexivity]).
Defined.

Lemma schedule_status_report_unknown_type_witness :
  @schedule_status_report Loopback.sle Loopback.schema
    (Loopback.session "all") "bogus" None
    Loopback.w0
  = (Raise (ValueError "Unknown report type: bogus"), mkWorld [] [] [] 1).
Proof.
  apply (@schedule_status_report_unknown_type Loopback.sle Loopback.schema
           (Loopback.session "all") "bogus" None Loopback.w0
           (used [Byte.x2a]) Loopback.w0 0);
    first [discriminate | reflexivity].
Defined.

Lemma schedule_status_report_ignores_cycle_witness :
  @schedule_status_report Loopback.sle Loopback.schema
    (Loopback.session "none") "stop" (Some 601)
  = @schedule_status_report Loopback.sle Loopback.schema
    (Loopback.session "none") "stop" None.
Proof.
  apply (@schedule_status_report_ignores_cycle Loopback.sle Loopback.schema). discriminate.
Defined.

Lemma return_pdus_delegated_to_base_witness :
  @_handle_pdu Loopback.sle Loopback.frames Loopback.pyasn1
    (Loopback.session "none") (Choice "rcfStartReturn" Null) Loopback.w0
  = (Normal tt, mkWorld [(INFO, "rcfStartReturn")] [] [] 0).
Proof.
  apply (@return_pdus_delegated_to_base Loopback.sle Loopback.frames
           Loopback.pyasn1 "none" ∅ None (Some 42) (Some 1)
           "rcfStartReturn" Loopback.base_handler Null Loopback.w0).
  - simpl. right. right. left. reflexivity.
  - reflexivity.
Defined.

Lemma handle_pdu_stops_at_raising_handler_witness :
  @_handle_pdu Loopback.sle Loopback.frames Loopback.pyasn1
    (mkRCF "none" "rtnChFrames" 5 None None
       (append_handler "RcfStopReturn" (callable (fun _ => log_info "never"))
       (append_handler "RcfStopReturn" (callable (fun _ => raise TypeError))
       (append_handler "RcfStopReturn" (callable (fun _ => log_info "first"))
          ∅))))
    (Choice "rcfStopReturn" Null) Loopback.w0
  = (Raise TypeError, mkWorld [(INFO, "first")] [] [] 0).
Proof.
  apply (@handle_pdu_stops_at_raising_handler Loopback.sle Loopback.frames
           Loopback.pyasn1 _ "rcfStopReturn" Null
           [callable (fun _ => log_info "first")]
           (callable (fun _ => raise TypeError))
           [callable (fun _ => log_info "never")]
           Loopback.w0 (mkWorld [(INFO, "first")] [] [] 0)).
  - vm_compute. reflexivity.
  - eapply invoked_next; [reflexivity | apply invoked_none].
  - reflexivity.
Defined.

Lemma transfer_data_decoder_failure_witness :
  @_transfer_data_invoc_handler Loopback.strict_frames
    (Choice "annotatedFrame" (Sequence [("data", OctetString [Byte.x01])]))
    Loopback.w0
  = (Raise struct_error, Loopback.w0).
Proof.
  apply (@transfer_data_decoder_failure Loopback.strict_frames
           [("data", OctetString [Byte.x01])] [Byte.x01]);
    reflexivity.
Defined.

Lemma sync_notify_status_out_of_range_witness :
  @_sync_notify_handler Loopback.pyasn1
    (Choice "syncNotification"
       (Sequence [("notification", Choice "productionStatusChange" (Integer 3))]))
    Loopback.w0
  = (Raise IndexError, Loopback.w0).
Proof.
  apply (@sync_notify_status_out_of_range Loopback.pyasn1 _ 3);
    [reflexivity | right; reflexivity].
Defined.

Lemma sync_notify_status_negative_index_witness :
  @_sync_notify_handler Loopback.pyasn1
    (Choice "syncNotification"
       (Sequence [("notification", Choice "productionStatusChange" (Integer (-1)))]))
    Loopback.w0
  = @_sync_notify_handler Loopback.pyasn1
      (Choice "syncNotification"
         (Sequence [("notification", Choice "productionStatusChange" (Integer 2))]))
      Loopback.w0.
Proof.
  apply (@sync_notify_status_negative_index Loopback.pyasn1 _ _ (-1));
    first [lia | reflexivity].
Defined.

Lemma sync_notify_fixed_reports_witness :
  @_sync_notify_handler Loopback.pyasn1
    (Choice "syncNotification"
       (Sequence [("notification", Choice "endOfData" Null)]))
    Loopback.w0
  = (Normal tt, log_record INFO "End of Data Received" Loopback.w0).
Proof.
  apply (proj2 (@sync_notify_fixed_reports Loopback.pyasn1
                  [("notification", Choice "endOfData" Null)] Null Loopback.w0)).
  reflexivity.
Defined.

Lemma sync_notify_loss_frame_sync_witness :
  exists report,
    @_sync_notify_handler Loopback.pyasn1
      (Choice "syncNotification"
         (Sequence
            [("notification",
              Choice "lossFrameSync"
                (Sequence [("time", Integer 7);
                           ("carrierLockStatus", Integer 0);
                           ("subcarrierLockStatus", Integer 1);
                           ("symbolSynclockStatus", Integer 2)]))]))
      Loopback.w0
    = (Normal tt, log_record INFO report Loopback.w0).
Proof.
  eexists.
  apply (@sync_notify_loss_frame_sync Loopback.pyasn1
           [("notification",
             Choice "lossFrameSync"
               (Sequence [("time", Integer 7);
                          ("carrierLockStatus", Integer 0);
                          ("subcarrierLockStatus", Integer 1);
                          ("symbolSynclockStatus", Integer 2)]))]
           [("time", Integer 7);
            ("carrierLockStatus", Integer 0);
            ("subcarrierLockStatus", Integer 1);
            ("symbolSynclockStatus", Integer 2)]
           (Integer 7) (Integer 0) (Integer 1) (Integer 2));
    reflexivity.
Defined.

Lemma transfer_buffer_frame_forwarded_witness :
  @_handle_pdu Loopback.sle Loopback.frames Loopback.pyasn1
    (Loopback.session "none")
    (Choice "rcfTransferBuffer"
       (SequenceOf
          [Choice "annotatedFrame"
             (Sequence [("data", OctetString [Byte.x01; Byte.x02; Byte.x03])]);
           Choice "annotatedFrame"
             (Sequence [("data", OctetString [Byte.x04])])]))
    Loopback.w0
  = (Normal tt,
     mkWorld [(INFO, "Sending 3 bytes to telemetry port")]
       [([Byte.x01; Byte.x02; Byte.x03], ("localhost", 3076))] [] 0).
Proof.
  apply (@transfer_buffer_frame_forwarded Loopback.sle Loopback.frames
           Loopback.pyasn1 "none" ∅ None (Some 42) (Some 1)
           [("data", OctetString [Byte.x01; Byte.x02; Byte.x03])]
           [Choice "annotatedFrame" (Sequence [("data", OctetString [Byte.x04])])]
           [Byte.x01; Byte.x02; Byte.x03] [Byte.x01; Byte.x02; Byte.x03] []
           Loopback.w0 Loopback.w0);
    reflexivity.
Defined.

Lemma transfer_buffer_frame_without_data_witness :
  @_handle_pdu Loopback.sle Loopback.frames Loopback.pyasn1
    (Loopback.session "none")
    (Choice "rcfTransferBuffer"
       (SequenceOf [Choice "annotatedFrame" (Sequence [])]))
    Loopback.w0
  = (Normal tt, log_record INFO transfer_data_err Loopback.w0).
Proof.
  apply (@transfer_buffer_frame_without_data Loopback.sle Loopback.frames
           Loopback.pyasn1 "none" ∅ None (Some 42) (Some 1));
    first [reflexivity | left; reflexivity].
Defined.

Lemma transfer_buffer_status_notification_witness :
  @_handle_pdu Loopback.sle Loopback.frames Loopback.pyasn1
    (Loopback.session "none")
    (Choice "rcfTransferBuffer"
       (SequenceOf
          [Choice "syncNotification"
             (Sequence
                [("notification", Choice "productionStatusChange" (Integer 1))])]))
    Loopback.w0
  = (Normal tt,
     log_record INFO "Production Status Report: interrupted" Loopback.w0).
Proof.
  apply (@transfer_buffer_status_notification Loopback.sle Loopback.frames
           Loopback.pyasn1 "none" ∅ None (Some 42) (Some 1)
           [("notification", Choice "productionStatusChange" (Integer 1))] []
           1 "interrupted");
    reflexivity.
Defined.

(** * The checks of the schema classes *)

Section SchemaChecks.
Context `{SLE} `{Schema}.

(** X22: a virtual channel that the schema class VcId rejects makes
    [start] raise the error of the rejected assignment of line 228: the
    credentials were made, the invoke id was read and both times were
    packed, but nothing is logged or transmitted. *)
Theorem start_virtual_channel_rejected self st et sc tf vc w cr w1 i w2 :
  truthy vc = true ->
  VcId_accepts vc = false ->
  truthy (resolved sc (_scid self)) = true ->
  truthy (resolved tf (_tfvn self)) = true ->
  Credential_Selector (_auth_level self) w = (Normal cr, w1) ->
  invoke_id w1 = (Normal i, w2) ->
  0 <= days (datetime_sub st CCSDS_EPOCH) <= 65535 ->
  0 <= days (datetime_sub et CCSDS_EPOCH) <= 65535 ->
  start self st et sc tf false vc w = (Raise (VcId_error vc), w2).
Proof.
  intros Hc Hv Hs Ht Hcr Hi Hst Het.
  now apply start_vcid_check with (cr := cr) (w1 := w1) (i := i).
Qed.

(** X23: with report type "periodically" and a cycle between 2 and 600,
    [schedule_status_report] logs and transmits the PDU whose report type
    is periodically with that cycle, under the selected credentials and
    the invoke id read from the session. *)
Theorem schedule_status_report_periodic_cycle_sent self c w cr w1 i w2 :
  2 <= c <= 600 ->
  Credential_Selector (_auth_level self) w = (Normal cr, w1) ->
  invoke_id w1 = (Normal i, w2) ->
  schedule_status_report self "periodically" (Some c) w
  = transmit
      (rcfScheduleStatusReportInvocation
         (mkRcfScheduleStatusReportInvocation cr i (periodically (Some c))))
      (log_record INFO "Scheduling Status Report" w2).
Proof.
  intros Hc Hcr Hi.
  apply schedule_status_report_run with (w1 := w1); try assumption.
  unfold ReportSchedule, ReportingCycle_accepts. simpl.
  destruct (Z.leb_spec 2 c), (Z.leb_spec c 600); simpl; try reflexivity; lia.
Qed.

End SchemaChecks.

Lemma start_virtual_channel_rejected_witness :
  @start Loopback.sle Loopback.schema (Loopback.session "none")
    (datetime_add_days Loopback.epoch 1) (datetime_add_days Loopback.epoch 2)
    None None false (Some 64) Loopback.w0
  = (Raise PyAsn1Error, mkWorld [] [] [] 1).
Proof.
  apply (@start_virtual_channel_rejected Loopback.sle Loopback.schema
           (Loopback.session "none") _ _ None None (Some 64) Loopback.w0
           unused Loopback.w0 0 (mkWorld [] [] [] 1));
    first [reflexivity | vm_compute; split; discriminate].
Defined.

Lemma schedule_status_report_periodic_cycle_sent_witness :
  @schedule_status_report Loopback.sle Loopback.schema
    (Loopback.session "none") "periodically" (Some 600) Loopback.w0
  = @transmit Loopback.sle
      (rcfScheduleStatusReportInvocation
         (mkRcfScheduleStatusReportInvocation unused 0 (periodically (Some 600))))
      (log_record INFO "Scheduling Status Report" (mkWorld [] [] [] 1)).
Proof.
  apply (@schedule_status_report_periodic_cycle_sent Loopback.sle
           Loopback.schema (Loopback.session "none") 600 Loopback.w0 unused
           Loopback.w0 0 (mkWorld [] [] [] 1));
    first [lia | reflexivity].
Defined.
